(** * User microservice (server.js): request handlers over two storage backends

    A shallow embedding of the Express handlers of [src/server.js].  The file
    holds two revisions of the service: the first one talks to DynamoDB only
    (module [V1]), the second one selects DynamoDB or PostgreSQL with the
    [usePostgres] flag (module [V2]).

    The handlers are [async] functions that await calls to three external
    collaborators (the DynamoDB client, the PostgreSQL client and axios).
    They are embedded in a small state-and-exception monad [M]: the state is
    the outside world together with the trace of the calls issued so far, an
    exception is a rejected promise or a thrown error.  The collaborators
    are a record [Env] of transition functions on the world, so that a
    statement about the control flow of a handler holds for every behaviour
    of the stores, and a reference environment ([Ref]) gives the documented
    behaviour of the two stores for the statements that depend on it. *)

From Stdlib Require Import String List ZArith Bool Ascii.
From stdpp Require Import base gmap strings list fin_maps.
Import ListNotations.
Local Open Scope string_scope.

(** ** JavaScript values *)

(** The values that reach the handlers: a parsed JSON body, a row of a
    query, the payload of the order service.  A number is only ever tested
    for truthiness and passed on, so integers stand for numbers. *)
#[warnings="-register-all"] Inductive jsval : Type :=
| VUndefined
| VNull
| VBool (b : bool)
| VNum (n : Z)
| VStr (s : string)
| VArr (elems : list jsval)
| VObj (props : list (string * jsval)).

(** [!!v] of JavaScript: the falsy values are [undefined], [null], [false],
    [0] and the empty string. *)
Definition truthy (v : jsval) : bool :=
  match v with
  | VUndefined | VNull => false
  | VBool b => b
  | VNum n => negb (n =? 0)%Z
  | VStr s => negb (String.eqb s "")
  | VArr _ | VObj _ => true
  end.

(** [o.k] on the own properties of an object: [undefined] when absent. *)
Fixpoint get_prop (k : string) (props : list (string * jsval)) : jsval :=
  match props with
  | [] => VUndefined
  | (k', v) :: rest => if String.eqb k k' then v else get_prop k rest
  end.

(** The names of the own properties, in order. *)
Definition keys (v : jsval) : list string :=
  match v with
  | VObj props => map fst props
  | _ => []
  end.

(** [v.k] on any value: objects answer from their properties, the other
    values have none of the properties the handlers and their clients ask
    for. *)
Definition field (k : string) (v : jsval) : jsval :=
  match v with
  | VObj props => get_prop k props
  | _ => VUndefined
  end.

(** A thrown error or the reason of a rejected promise. *)
Record error := mkError { err_name : string; err_message : string }.

Definition TypeError (msg : string) : error := mkError "TypeError" msg.

(** ** HTTP responses *)

Record response := mkResponse { status : Z; body : jsval }.

(** [res.status(code).json(b)] *)
Definition res_status_json (code : Z) (b : jsval) : response :=
  mkResponse code b.

(** [res.json(b)]: the status stays at Express's default, 200. *)
Definition res_json (b : jsval) : response := mkResponse 200 b.

(** ** The external collaborators *)

(** A DynamoDB attribute value [{ S: v }].  The handlers build it from
    whatever the request carries and read nothing but [.S] from it. *)
Record AttributeValue := mkAttr { AttrS : jsval }.

Definition attr_map := list (string * AttributeValue).

Inductive dynamo_command : Type :=
| PutItemCommand (TableName : string) (Item : attr_map)
| GetItemCommand (TableName : string) (Key : attr_map)
| UpdateItemCommand (TableName : string) (Key : attr_map)
    (UpdateExpression : string)
    (ExpressionAttributeNames : list (string * string))
    (ExpressionAttributeValues : attr_map)
| DeleteItemCommand (TableName : string) (Key : attr_map)
| ScanCommand (TableName : string).

(** The output of [dynamo.send]: [Item] and [Items] are optional members. *)
Record dynamo_output := mkOutput {
  Item : option attr_map;
  Items : option (list attr_map)
}.

(** The result of [pgClient.query] and the response of [axios.get]. *)
Record pg_result := mkPgResult { rows : list jsval }.
Record axios_response := mkAxios { data : jsval }.

(** What the handlers do to the outside, in the order they do it.  A call
    is recorded with the error it was rejected with, if any. *)
Inductive event : Type :=
| EvDynamo (c : dynamo_command) (rejected : option error)
| EvPg (sql : string) (params : list jsval) (rejected : option error)
| EvAxios (url : string) (rejected : option error)
| EvConsoleError (msg : string) (e : error).

Definition is_store_call (ev : event) : bool :=
  match ev with
  | EvDynamo _ _ | EvPg _ _ _ => true
  | _ => false
  end.

Definition is_order_call (ev : event) : bool :=
  match ev with
  | EvAxios _ _ => true
  | _ => false
  end.

(** A store call that was rejected with [e]. *)
Definition store_call_rejected (ev : event) : option error :=
  match ev with
  | EvDynamo _ r | EvPg _ _ r => r
  | _ => None
  end.

(** The collaborators as transitions of a world [W]: a call either rejects
    with an error or resolves with a result, and may change the world. *)
Record Env (W : Type) := mkEnv {
  dynamo_send : dynamo_command -> W -> (error + dynamo_output) * W;
  pgClient_query : string -> list jsval -> W -> (error + pg_result) * W;
  axios_get : string -> W -> (error + axios_response) * W
}.
Arguments dynamo_send {W}.
Arguments pgClient_query {W}.
Arguments axios_get {W}.

(** ** The monad of handlers *)

Record state (W : Type) := mkState { world : W; trace : list event }.
Arguments mkState {W}.
Arguments world {W}.
Arguments trace {W}.

Definition M (W A : Type) : Type := state W -> (error + A) * state W.

Definition ret {W A} (a : A) : M W A := fun st => (inr a, st).

Definition throw {W A} (e : error) : M W A := fun st => (inl e, st).

Definition bind {W A B} (m : M W A) (k : A -> M W B) : M W B :=
  fun st =>
    match m st with
    | (inr a, st') => k a st'
    | (inl e, st') => (inl e, st')
    end.

(** [try { m } catch (e) { h e }] *)
Definition try_catch {W A} (m : M W A) (h : error -> M W A) : M W A :=
  fun st =>
    match m st with
    | (inr a, st') => (inr a, st')
    | (inl e, st') => h e st'
    end.

Notation "x <- m ;; k" := (bind m (fun x => k))
  (at level 100, m at next level, right associativity).
Notation "m ;;; k" := (bind m (fun _ => k))
  (at level 100, right associativity).

Definition rejection {A} (r : error + A) : option error :=
  match r with
  | inl e => Some e
  | inr _ => None
  end.

Definition log {W} (ev : event) (w : W) (st : state W) : state W :=
  mkState w (trace st ++ [ev]).

Section Await.
Context {W : Type} (env : Env W).

(** [await dynamo.send(c)] *)
Definition await_dynamo_send (c : dynamo_command) : M W dynamo_output :=
  fun st =>
    let '(r, w) := dynamo_send env c (world st) in
    (r, log (EvDynamo c (rejection r)) w st).

(** [await pgClient.query(sql, params)] *)
Definition await_pgClient_query (sql : string) (params : list jsval)
  : M W pg_result :=
  fun st =>
    let '(r, w) := pgClient_query env sql params (world st) in
    (r, log (EvPg sql params (rejection r)) w st).

(** [await axios.get(url)] *)
Definition await_axios_get (url : string) : M W axios_response :=
  fun st =>
    let '(r, w) := axios_get env url (world st) in
    (r, log (EvAxios url (rejection r)) w st).

(** [console.error(msg, e)] *)
Definition console_error (msg : string) (e : error) : M W unit :=
  fun st => (inr tt, log (EvConsoleError msg e) (world st) st).
End Await.

(** [Item.k.S]: reading [.S] of an attribute the item does not have throws
    a [TypeError]. *)
Fixpoint get_attr (k : string) (item : attr_map) : option AttributeValue :=
  match item with
  | [] => None
  | (k', a) :: rest => if String.eqb k k' then Some a else get_attr k rest
  end.

Definition attr_S {W} (k : string) (item : attr_map) : M W jsval :=
  match get_attr k item with
  | Some a => ret (AttrS a)
  | None => throw (TypeError "Cannot read properties of undefined (reading 'S')")
  end.

(** [a[0]] on an array. *)
Definition first_row (a : list jsval) : jsval := nth 0 a VUndefined.

Definition TABLE : string := "Users".

Definition missing_fields : jsval := VObj [("error", VStr "Missing fields")].
Definition user_not_found : jsval := VObj [("error", VStr "User not found")].
Definition internal_server_error : jsval :=
  VObj [("error", VStr "Internal server error")].
Definition message (m : string) : jsval := VObj [("message", VStr m)].

(** The address of the order service for a user. *)
Definition orders_url (id : string) : string :=
  "http://localhost:4001/orders?user=" +:+ id.

(** ** The second revision: DynamoDB or PostgreSQL

    [body] is [req.body] as [express.json()] leaves it for a JSON object,
    the list of its properties; [id] is [req.params.id].  The clients are
    the ones [initDB] has set up. *)

Module V2.
Section Handlers.
Context {W : Type} (env : Env W).

(** [process.env.USE_POSTGRES === 'true'], read once at startup. *)
Context (usePostgres : bool).

(** [app.post('/users', ...)] *)
Definition post_users (body : list (string * jsval)) : M W response :=
  let userId := get_prop "userId" body in
  let name := get_prop "name" body in
  let email := get_prop "email" body in
  if negb (truthy userId) || negb (truthy name) || negb (truthy email)
  then ret (res_status_json 400 missing_fields)
  else
    try_catch
      ((if usePostgres then
          _ <- await_pgClient_query env
                 "INSERT INTO users (userId, name, email) VALUES ($1, $2, $3)"
                 [userId; name; email] ;;
          ret tt
        else
          _ <- await_dynamo_send env
                 (PutItemCommand TABLE
                    [("userId", mkAttr userId);
                     ("name", mkAttr name);
                     ("email", mkAttr email)]) ;;
          ret tt) ;;;
       ret (res_status_json 201 (message "User created!")))
      (fun error =>
         console_error "Create user error:" error ;;;
         ret (res_status_json 500 internal_server_error)).

(** The storage lookup of [app.get('/users/:id', ...)]: it either leaves
    the handler with a response ([return res.status(404)...]) or binds
    [user]. *)
Definition lookup_user (id : string) : M W (response + jsval) :=
  if usePostgres then
    result <- await_pgClient_query env
                "SELECT * FROM users WHERE userId=$1" [VStr id] ;;
    if negb (truthy (first_row (rows result)))
    then ret (inl (res_status_json 404 user_not_found))
    else ret (inr (first_row (rows result)))
  else
    out <- await_dynamo_send env
             (GetItemCommand TABLE [("userId", mkAttr (VStr id))]) ;;
    match Item out with
    | None => ret (inl (res_status_json 404 user_not_found))
    | Some item =>
        userId <- attr_S "userId" item ;;
        name <- attr_S "name" item ;;
        email <- attr_S "email" item ;;
        ret (inr (VObj [("userId", userId); ("name", name); ("email", email)]))
    end.

(** The order lookup: [orders] starts as [[]] and keeps that value when
    the call fails. *)
Definition fetch_orders (id : string) : M W jsval :=
  try_catch
    (r <- await_axios_get env (orders_url id) ;;
     ret (data r))
    (fun _ => ret (VArr [])).

(** [app.get('/users/:id', ...)] *)
Definition get_users_id (id : string) : M W response :=
  try_catch
    (found <- lookup_user id ;;
     match found with
     | inl res => ret res
     | inr user =>
         orders <- fetch_orders id ;;
         ret (res_json (VObj [("user", user); ("orders", orders)]))
     end)
    (fun error =>
       console_error "Get user error:" error ;;;
       ret (res_status_json 500 internal_server_error)).

(** [app.put('/users/:id', ...)] *)
Definition put_users_id (id : string) (body : list (string * jsval))
  : M W response :=
  let name := get_prop "name" body in
  let email := get_prop "email" body in
  if negb (truthy name) || negb (truthy email)
  then ret (res_status_json 400 missing_fields)
  else
    try_catch
      ((if usePostgres then
          _ <- await_pgClient_query env
                 "UPDATE users SET name=$1, email=$2 WHERE userId=$3"
                 [name; email; VStr id] ;;
          ret tt
        else
          _ <- await_dynamo_send env
                 (UpdateItemCommand TABLE
                    [("userId", mkAttr (VStr id))]
                    "SET #n = :n, email = :e"
                    [("#n", "name")]
                    [(":n", mkAttr name); (":e", mkAttr email)]) ;;
          ret tt) ;;;
       ret (res_json (message "User updated!")))
      (fun error =>
         console_error "Update user error:" error ;;;
         ret (res_status_json 500 internal_server_error)).

(** [app.delete('/users/:id', ...)] *)
Definition delete_users_id (id : string) : M W response :=
  try_catch
    ((if usePostgres then
        _ <- await_pgClient_query env
               "DELETE FROM users WHERE userId=$1" [VStr id] ;;
        ret tt
      else
        _ <- await_dynamo_send env
               (DeleteItemCommand TABLE [("userId", mkAttr (VStr id))]) ;;
        ret tt) ;;;
     ret (res_json (message "User deleted!")))
    (fun error =>
       console_error "Delete user error:" error ;;;
       ret (res_status_json 500 internal_server_error)).

(** One element of the [map] over the scanned items. *)
Definition scan_user (i : attr_map) : M W jsval :=
  userId <- attr_S "userId" i ;;
  name <- attr_S "name" i ;;
  email <- attr_S "email" i ;;
  ret (VObj [("userId", userId); ("name", name); ("email", email)]).

Fixpoint map_M {A B} (f : A -> M W B) (l : list A) : M W (list B) :=
  match l with
  | [] => ret []
  | x :: rest =>
      y <- f x ;;
      ys <- map_M f rest ;;
      ret (y :: ys)
  end.

(** [app.get('/users', ...)] *)
Definition get_users : M W response :=
  try_catch
    (if usePostgres then
       result <- await_pgClient_query env "SELECT * FROM users" [] ;;
       ret (res_json (VArr (rows result)))
     else
       result <- await_dynamo_send env (ScanCommand TABLE) ;;
       users <- map_M scan_user (default [] (Items result)) ;;
       ret (res_json (VArr users)))
    (fun error =>
       console_error "List users error:" error ;;;
       ret (res_status_json 500 internal_server_error)).

(** Express's routing of the five endpoints; [:id] is the path segment. *)
Inductive request : Type :=
| POST_users (body : list (string * jsval))
| GET_users_id (id : string)
| PUT_users_id (id : string) (body : list (string * jsval))
| DELETE_users_id (id : string)
| GET_users.

Definition handle (req : request) : M W response :=
  match req with
  | POST_users body => post_users body
  | GET_users_id id => get_users_id id
  | PUT_users_id id body => put_users_id id body
  | DELETE_users_id id => delete_users_id id
  | GET_users => get_users
  end.

(** One request served from world [w], with a fresh trace. *)
Definition serve (req : request) (w : W) : (error + response) * state W :=
  handle req (mkState w []).

End Handlers.
End V2.

(** ** The first revision: DynamoDB only *)

Module V1.
Section Handlers.
Context {W : Type} (env : Env W).

(** [app.post('/users', ...)] *)
Definition post_users (body : list (string * jsval)) : M W response :=
  let userId := get_prop "userId" body in
  let name := get_prop "name" body in
  let email := get_prop "email" body in
  if negb (truthy userId) || negb (truthy name) || negb (truthy email)
  then ret (res_status_json 400 missing_fields)
  else
    try_catch
      (_ <- await_dynamo_send env
              (PutItemCommand TABLE
                 [("userId", mkAttr userId);
                  ("name", mkAttr name);
                  ("email", mkAttr email)]) ;;
       ret (res_status_json 201 (message "User created!")))
      (fun err =>
         console_error "DynamoDB Put error" err ;;;
         ret (res_status_json 500 internal_server_error)).

(** [app.put('/users/:id', ...)]: no test of [name] and [email] here. *)
Definition put_users_id (id : string) (body : list (string * jsval))
  : M W response :=
  let name := get_prop "name" body in
  let email := get_prop "email" body in
  try_catch
    (_ <- await_dynamo_send env
            (UpdateItemCommand TABLE
               [("userId", mkAttr (VStr id))]
               "SET #n = :n, email = :e"
               [("#n", "name")]
               [(":n", mkAttr name); (":e", mkAttr email)]) ;;
     ret (res_json (message "User updated!")))
    (fun err =>
       console_error "DynamoDB Update error" err ;;;
       ret (res_status_json 500 internal_server_error)).

(** [app.get('/users/:id', ...)]: the order lookup comes before the
    attributes of the item are read. *)
Definition get_users_id (id : string) : M W response :=
  try_catch
    (out <- await_dynamo_send env
              (GetItemCommand TABLE [("userId", mkAttr (VStr id))]) ;;
     match Item out with
     | None => ret (res_status_json 404 user_not_found)
     | Some item =>
         orders <- try_catch
                     (r <- await_axios_get env (orders_url id) ;;
                      ret (data r))
                     (fun _ => ret (VArr [])) ;;
         userId <- attr_S "userId" item ;;
         name <- attr_S "name" item ;;
         email <- attr_S "email" item ;;
         ret (res_json
                (VObj [("user", VObj [("userId", userId); ("name", name);
                                      ("email", email)]);
                       ("orders", orders)]))
     end)
    (fun err =>
       console_error "DynamoDB Get error" err ;;;
       ret (res_status_json 500 internal_server_error)).

(** [app.delete('/users/:id', ...)] *)
Definition delete_users_id (id : string) : M W response :=
  try_catch
    (_ <- await_dynamo_send env
            (DeleteItemCommand TABLE [("userId", mkAttr (VStr id))]) ;;
     ret (res_json (message "User deleted!")))
    (fun err =>
       console_error "DynamoDB Delete error" err ;;;
       ret (res_status_json 500 internal_server_error)).

(** [app.get('/users', ...)] *)
Definition get_users : M W response :=
  try_catch
    (result <- await_dynamo_send env (ScanCommand TABLE) ;;
     users <- V2.map_M V2.scan_user (default [] (Items result)) ;;
     ret (res_json (VArr users)))
    (fun err =>
       console_error "DynamoDB Scan error" err ;;;
       ret (res_status_json 500 internal_server_error)).

(** The same five routes as in the second revision. *)
Definition handle (req : V2.request) : M W response :=
  match req with
  | V2.POST_users body => post_users body
  | V2.GET_users_id id => get_users_id id
  | V2.PUT_users_id id body => put_users_id id body
  | V2.DELETE_users_id id => delete_users_id id
  | V2.GET_users => get_users
  end.

Definition serve (req : V2.request) (w : W) : (error + response) * state W :=
  handle req (mkState w []).

End Handlers.
End V1.

(** ** Startup: [initDB] and the listener

    The startup code talks to the stores through three more calls:
    [pgClient.connect()], [pgClient.query(ddl)] and [ddb.createTable(input)].
    What it does is kept in a log of its own, which travels in the world
    of the monad together with the outside world. *)

Module Boot.

(** The input of [ddb.createTable]. *)
Record create_table_input := mkCreateTable {
  TableName : string;
  AttributeDefinitions : list (string * string);
  KeySchema : list (string * string);
  BillingMode : string
}.

Inductive boot_event : Type :=
| BConnect (rejected : option error)
| BQuery (sql : string) (rejected : option error)
| BCreateTable (input : create_table_input) (rejected : option error)
| BConsoleLog (args : list string)
| BConsoleError (msg : string) (e : error)
| BListen (port : jsval)
| BExit (code : Z).

Record BootEnv (W : Type) := mkBootEnv {
  pgClient_connect : W -> (error + unit) * W;
  pgClient_query : string -> W -> (error + unit) * W;
  ddb_createTable : create_table_input -> W -> (error + unit) * W
}.
Arguments pgClient_connect {W}.
Arguments pgClient_query {W}.
Arguments ddb_createTable {W}.

Record boot_world (W : Type) := mkBoot { outside : W; boot_log : list boot_event }.
Arguments mkBoot {W}.
Arguments outside {W}.
Arguments boot_log {W}.

Definition newline : string := String (ascii_of_nat 10) "".

(** The statement of [initDB], a template literal over six lines. *)
Definition create_users_table : string :=
  newline +:+ "      CREATE TABLE IF NOT EXISTS users (" +:+
  newline +:+ "        userid TEXT PRIMARY KEY," +:+
  newline +:+ "        name TEXT NOT NULL," +:+
  newline +:+ "        email TEXT NOT NULL" +:+
  newline +:+ "      )" +:+
  newline +:+ "    ".

Definition users_table_input : create_table_input :=
  mkCreateTable TABLE [("userId", "S")] [("userId", "HASH")] "PAY_PER_REQUEST".

(** [s.endsWith(suffix)] *)
Fixpoint ends_with (suffix s : string) : bool :=
  String.eqb s suffix
  || match s with
     | EmptyString => false
     | String _ rest => ends_with suffix rest
     end.

(** [process.argv[1] && process.argv[1].endsWith('server.mjs')] *)
Definition run_directly (argv1 : option string) : bool :=
  match argv1 with
  | Some s => negb (String.eqb s "") && ends_with "server.mjs" s
  | None => false
  end.

(** [process.env.PORT || 3000] *)
Definition PORT (env_PORT : option string) : jsval :=
  match env_PORT with
  | Some s => if truthy (VStr s) then VStr s else VNum 3000
  | None => VNum 3000
  end.

(** [`${PORT}`] *)
Definition PORT_text (env_PORT : option string) : string :=
  match PORT env_PORT with
  | VStr s => s
  | _ => "3000"
  end.

Section Startup.
Context {W : Type} (benv : BootEnv W).

Definition record (ev : boot_event) (w : W) (st : state (boot_world W))
  : state (boot_world W) :=
  mkState (mkBoot w (boot_log (world st) ++ [ev])) (trace st).

(** [await pgClient.connect()] *)
Definition await_connect : M (boot_world W) unit :=
  fun st =>
    let '(r, w) := pgClient_connect benv (outside (world st)) in
    (r, record (BConnect (rejection r)) w st).

(** [await pgClient.query(sql)] *)
Definition await_query (sql : string) : M (boot_world W) unit :=
  fun st =>
    let '(r, w) := pgClient_query benv sql (outside (world st)) in
    (r, record (BQuery sql (rejection r)) w st).

(** [await ddb.createTable(input)] *)
Definition await_createTable (input : create_table_input)
  : M (boot_world W) unit :=
  fun st =>
    let '(r, w) := ddb_createTable benv input (outside (world st)) in
    (r, record (BCreateTable input (rejection r)) w st).

Definition effect (ev : boot_event) : M (boot_world W) unit :=
  fun st => (inr tt, record ev (outside (world st)) st).

Definition console_log (args : list string) : M (boot_world W) unit :=
  effect (BConsoleLog args).

Definition console_error (msg : string) (e : error) : M (boot_world W) unit :=
  effect (BConsoleError msg e).

(** [async function initDB()] of the second revision *)
Definition initDB (usePostgres : bool) : M (boot_world W) unit :=
  if usePostgres then
    await_connect ;;;
    await_query create_users_table ;;;
    console_log ["Connected to PostgreSQL, ensured users table exists"]
  else
    try_catch
      (await_createTable users_table_input ;;;
       console_log ["Created DynamoDB table:"; TABLE])
      (fun e =>
         if negb (String.eqb (err_name e) "ResourceInUseException")
         then console_error "DynamoDB Table create error:" e
         else console_log ["DynamoDB table already exists:"; TABLE]).

(** The last statement but one of the second revision:
    [initDB().then(listen).catch(exit)] when the file is run directly.
    [app.listen] is taken to succeed; [process.exit(1)] ends the run. *)
Definition start (usePostgres : bool) (argv1 env_PORT : option string)
  : M (boot_world W) unit :=
  if run_directly argv1 then
    try_catch
      (initDB usePostgres ;;;
       effect (BListen (PORT env_PORT)) ;;;
       console_log
         ["User microservice running on port " +:+ PORT_text env_PORT
          +:+ " (using "
          +:+ (if usePostgres then "PostgreSQL" else "DynamoDB") +:+ ")"])
      (fun err =>
         console_error "Error initializing DB:" err ;;;
         effect (BExit 1))
  else ret tt.

(** The startup of the first revision: listen, then make sure the table
    exists. *)
Definition start_v1 (env_PORT : option string) : M (boot_world W) unit :=
  effect (BListen (PORT env_PORT)) ;;;
  console_log ["User microservice running on port " +:+ PORT_text env_PORT] ;;;
  try_catch
    (await_createTable users_table_input ;;;
     console_log ["Created DynamoDB table:"; TABLE])
    (fun e =>
       if negb (String.eqb (err_name e) "ResourceInUseException")
       then console_error "Table create error" e
       else ret tt).

(** A run from outside world [w] with an empty log. *)
Definition boot (m : M (boot_world W) unit) (w : W)
  : (error + unit) * state (boot_world W) :=
  m (mkState (mkBoot w []) []).

End Startup.

(** A store whose three calls answer as told: [None] resolves, [Some e]
    rejects with [e]. *)
Definition scripted (connect query createTable : option error) : BootEnv unit :=
  let answer (o : option error) (w : unit) : (error + unit) * unit :=
    match o with
    | Some e => (inl e, w)
    | None => (inr tt, w)
    end in
  mkBootEnv unit (answer connect) (fun _ => answer query)
    (fun _ => answer createTable).

End Boot.

(** ** A reference environment

    The stores and the order service are not part of the repository: the
    handlers see them only through the three clients.  This module gives
    them the behaviour the specification describes, on the commands and
    the statements the handlers issue, for a table and a relation that only
    this service writes.  Size limits and character-set restrictions of the
    stores are left out. *)

Module Ref.

(** A row of the relation created by [initDB]:
    [CREATE TABLE IF NOT EXISTS users (userid TEXT PRIMARY KEY,
     name TEXT NOT NULL, email TEXT NOT NULL)]. *)
Record users_row := mkRow { userid : string; name : string; email : string }.

Record world := mkWorld {
  (** the active store can be reached *)
  store_up : bool;
  (** the DynamoDB table [Users]: hash key [userId], then for each item
      its string attributes *)
  dynamo_Users : gmap string (gmap string string);
  (** the PostgreSQL relation [users], in scan order *)
  pg_users : list users_row;
  (** the order service: the payload for an address, or a failure *)
  order_service : string -> option jsval
}.

Definition set_dynamo_Users (t : gmap string (gmap string string)) (w : world)
  : world :=
  mkWorld (store_up w) t (pg_users w) (order_service w).

Definition set_pg_users (r : list users_row) (w : world) : world :=
  mkWorld (store_up w) (dynamo_Users w) r (order_service w).

Definition connection_refused : error := mkError "Error" "connect ECONNREFUSED".
Definition ValidationException : error :=
  mkError "ValidationException" "One or more parameter values were invalid".
Definition ResourceNotFoundException : error :=
  mkError "ResourceNotFoundException" "Cannot do operations on a non-existent table".

(** *** DynamoDB *)

(** An attribute value the service accepts: [{ S: s }] with [s] a string. *)
Definition string_attr (a : AttributeValue) : option string :=
  match AttrS a with
  | VStr s => Some s
  | _ => None
  end.

Fixpoint string_attrs (item : attr_map) : option (list (string * string)) :=
  match item with
  | [] => Some []
  | (k, a) :: rest =>
      match string_attr a, string_attrs rest with
      | Some s, Some l => Some ((k, s) :: l)
      | _, _ => None
      end
  end.

(** The key of a command must be the hash key alone, a non-empty string. *)
Definition key_of (Key : attr_map) : option string :=
  match Key with
  | [(k, a)] =>
      if String.eqb k "userId" then
        match string_attr a with
        | Some s => if String.eqb s "" then None else Some s
        | None => None
        end
      else None
  | _ => None
  end.

(** An item as the client returns it. *)
Definition item_out (item : gmap string string) : attr_map :=
  (fun kv => (kv.1, mkAttr (VStr kv.2))) <$> map_to_list item.

Definition no_output : dynamo_output := mkOutput None None.

(** Modelled from the spec: the key-value store behind [dynamo.send] is
    missing from the sources.  It is a single table keyed by [userId] with
    put, get, update, delete and scan, and no fixed schema beyond the key:
    a put on an existing key overwrites the item, an update or a delete of
    an absent key succeeds (the update then creates the item), a get of an
    absent key returns no item.  A value that is not a string, an empty
    key, or an expression other than the one the handlers send is a
    validation failure. *)
Definition dynamo_exec (c : dynamo_command) (w : world)
  : (error + dynamo_output) * world :=
  let t := dynamo_Users w in
  match c with
  | PutItemCommand tbl item =>
      if negb (String.eqb tbl "Users") then (inl ResourceNotFoundException, w)
      else
        match string_attrs item with
        | Some l =>
            let m : gmap string string := list_to_map l in
            match m !! "userId" with
            | Some k =>
                if String.eqb k "" then (inl ValidationException, w)
                else (inr no_output, set_dynamo_Users (<[k := m]> t) w)
            | None => (inl ValidationException, w)
            end
        | None => (inl ValidationException, w)
        end
  | GetItemCommand tbl Key =>
      if negb (String.eqb tbl "Users") then (inl ResourceNotFoundException, w)
      else
        match key_of Key with
        | Some k => (inr (mkOutput (item_out <$> t !! k) None), w)
        | None => (inl ValidationException, w)
        end
  | UpdateItemCommand tbl Key expr names values =>
      if negb (String.eqb tbl "Users") then (inl ResourceNotFoundException, w)
      else if negb (String.eqb expr "SET #n = :n, email = :e")
      then (inl ValidationException, w)
      else
        match key_of Key,
              (list_to_map names : gmap string string) !! "#n",
              get_attr ":n" values, get_attr ":e" values with
        | Some k, Some n, Some an, Some ae =>
            match string_attr an, string_attr ae with
            | Some vn, Some ve =>
                if String.eqb n "userId" || String.eqb n "email"
                then (inl ValidationException, w)
                else
                  let old := default {[ "userId" := k ]} (t !! k) in
                  (inr no_output,
                   set_dynamo_Users
                     (<[k := <["email" := ve]> (<[n := vn]> old)]> t) w)
            | _, _ => (inl ValidationException, w)
            end
        | _, _, _, _ => (inl ValidationException, w)
        end
  | DeleteItemCommand tbl Key =>
      if negb (String.eqb tbl "Users") then (inl ResourceNotFoundException, w)
      else
        match key_of Key with
        | Some k => (inr no_output, set_dynamo_Users (delete k t) w)
        | None => (inl ValidationException, w)
        end
  | ScanCommand tbl =>
      if negb (String.eqb tbl "Users") then (inl ResourceNotFoundException, w)
      else
        (inr (mkOutput None (Some (item_out <$> (map_to_list t).*2))), w)
  end.

Definition dynamo_send (c : dynamo_command) (w : world)
  : (error + dynamo_output) * world :=
  if store_up w then dynamo_exec c w else (inl connection_refused, w).

(** *** PostgreSQL *)

Definition unique_violation : error :=
  mkError "error" "duplicate key value violates unique constraint users_pkey".
Definition not_null_violation : error :=
  mkError "error" "null value in column violates not-null constraint".
Definition syntax_error : error := mkError "error" "syntax error".
Definition protocol_error : error :=
  mkError "error" "bind message supplies the wrong number of parameters".
Definition unsupported_parameter : error :=
  mkError "error" "parameter outside the reference model".

(** A parameter as the text the server receives: a string is sent as it
    is, [null] and [undefined] as NULL.  The driver's renderings of the
    other values are not part of this model. *)
Definition pg_text (v : jsval) : option (option string) :=
  match v with
  | VStr s => Some (Some s)
  | VNull | VUndefined => Some None
  | _ => None
  end.

(** A row as the driver returns it: one property per column, under the
    name the column has in the relation. *)
Definition row_out (r : users_row) : jsval :=
  VObj [("userid", VStr (userid r));
        ("name", VStr (name r));
        ("email", VStr (email r))].

(** [userId=$1]: unquoted identifiers fold to lower case, so [userId] is
    the column [userid]; nothing equals NULL. *)
Definition userid_is (p : option string) (r : users_row) : bool :=
  match p with
  | Some s => String.eqb (userid r) s
  | None => false
  end.

(** Modelled from the spec: the relational store behind [pgClient.query]
    is missing from the sources.  It runs the five parameterized statements
    of the handlers against the relation [users] with the columns [userid],
    [name], [email] and enforces the primary key and the NOT NULL columns:
    an INSERT on a taken [userid] fails with a uniqueness violation; an
    UPDATE or a DELETE that matches no row succeeds. *)
Definition pg_exec (sql : string) (params : list jsval) (w : world)
  : (error + pg_result) * world :=
  let t := pg_users w in
  if String.eqb sql "INSERT INTO users (userId, name, email) VALUES ($1, $2, $3)"
  then
    match params with
    | [p1; p2; p3] =>
        match pg_text p1, pg_text p2, pg_text p3 with
        | Some (Some u), Some (Some n), Some (Some e) =>
            if existsb (userid_is (Some u)) t
            then (inl unique_violation, w)
            else (inr (mkPgResult []), set_pg_users (t ++ [mkRow u n e]) w)
        | Some _, Some _, Some _ => (inl not_null_violation, w)
        | _, _, _ => (inl unsupported_parameter, w)
        end
    | _ => (inl protocol_error, w)
    end
  else if String.eqb sql "SELECT * FROM users WHERE userId=$1" then
    match params with
    | [p1] =>
        match pg_text p1 with
        | Some u => (inr (mkPgResult (map row_out (List.filter (userid_is u) t))), w)
        | None => (inl unsupported_parameter, w)
        end
    | _ => (inl protocol_error, w)
    end
  else if String.eqb sql "UPDATE users SET name=$1, email=$2 WHERE userId=$3" then
    match params with
    | [p1; p2; p3] =>
        match pg_text p1, pg_text p2, pg_text p3 with
        | Some n, Some e, Some u =>
            if existsb (userid_is u) t then
              match n, e with
              | Some n, Some e =>
                  (inr (mkPgResult []),
                   set_pg_users
                     (map (fun r => if userid_is u r
                                    then mkRow (userid r) n e else r) t) w)
              | _, _ => (inl not_null_violation, w)
              end
            else (inr (mkPgResult []), w)
        | _, _, _ => (inl unsupported_parameter, w)
        end
    | _ => (inl protocol_error, w)
    end
  else if String.eqb sql "DELETE FROM users WHERE userId=$1" then
    match params with
    | [p1] =>
        match pg_text p1 with
        | Some u =>
            (inr (mkPgResult []),
             set_pg_users (List.filter (fun r => negb (userid_is u r)) t) w)
        | None => (inl unsupported_parameter, w)
        end
    | _ => (inl protocol_error, w)
    end
  else if String.eqb sql "SELECT * FROM users" then
    match params with
    | [] => (inr (mkPgResult (map row_out t)), w)
    | _ => (inl protocol_error, w)
    end
  else (inl syntax_error, w).

Definition pgClient_query (sql : string) (params : list jsval) (w : world)
  : (error + pg_result) * world :=
  if store_up w then pg_exec sql params w else (inl connection_refused, w).

(** *** The order service *)

Definition request_failed : error := mkError "AxiosError" "Request failed".

(** Modelled from the spec: the order service is missing from the sources.
    A GET of the orders address either returns a payload or fails. *)
Definition axios_get (url : string) (w : world)
  : (error + axios_response) * world :=
  match order_service w url with
  | Some d => (inr (mkAxios d), w)
  | None => (inl request_failed, w)
  end.

Definition env : Env world := mkEnv world dynamo_send pgClient_query axios_get.

(** *** Sample worlds *)

Definition no_orders : string -> option jsval := fun _ => Some (VArr []).
Definition orders_down : string -> option jsval := fun _ => None.

Definition empty_world : world := mkWorld true ∅ [] no_orders.

Definition ann : list (string * jsval) :=
  [("userId", VStr "u1"); ("name", VStr "Ann"); ("email", VStr "ann@x.com")].

End Ref.

(** ** Vocabulary of the statements *)

(** A field that is absent from the body or holds the empty string. *)
Definition absent_or_empty (k : string) (body : list (string * jsval)) : Prop :=
  get_prop k body = VUndefined \/ get_prop k body = VStr "".

(** The item that POST /users writes. *)
Definition user_item (userId name email : string) : gmap string string :=
  list_to_map [("userId", userId); ("name", name); ("email", email)].

(** What the order lookup leaves in [orders]. *)
Definition ref_orders (w : Ref.world) (id : string) : jsval :=
  match Ref.order_service w (orders_url id) with
  | Some d => d
  | None => VArr []
  end.

(** The body of a POST /users for a user. *)
Definition new_user (u n e : string) : list (string * jsval) :=
  [("userId", VStr u); ("name", VStr n); ("email", VStr e)].

(** A world whose two stores both hold Ann as user u1. *)
Definition ann_stored : Ref.world :=
  Ref.mkWorld true {[ "u1" := user_item "u1" "Ann" "ann@x.com" ]}
    [Ref.mkRow "u1" "Ann" "ann@x.com"] Ref.no_orders.

(** The same world with the order service out of reach. *)
Definition ann_stored_orders_down : Ref.world :=
  Ref.mkWorld true {[ "u1" := user_item "u1" "Ann" "ann@x.com" ]}
    [Ref.mkRow "u1" "Ann" "ann@x.com"] Ref.orders_down.

(** Every item of the table has its key under [userId], a name and an
    email: what the writes of this service keep true. *)
Definition well_formed (w : Ref.world) : Prop :=
  forall (k : string) (item : gmap string string),
    Ref.dynamo_Users w !! k = Some item ->
    item !! "userId" = Some k
    /\ is_Some (item !! "name") /\ is_Some (item !! "email").

(** A world whose store cannot be reached. *)
Definition store_down : Ref.world := Ref.mkWorld false ∅ [] Ref.no_orders.

(** The answers an endpoint can give. *)
Definition allowed_status (req : V2.request) : list Z :=
  match req with
  | V2.POST_users _ => [400; 201; 500]%Z
  | V2.GET_users_id _ => [404; 200; 500]%Z
  | V2.PUT_users_id _ _ => [400; 200; 500]%Z
  | V2.DELETE_users_id _ => [200; 500]%Z
  | V2.GET_users => [200; 500]%Z
  end.

Definition is_get_users_id (req : V2.request) : bool :=
  match req with
  | V2.GET_users_id _ => true
  | _ => false
  end.

Definition is_get (req : V2.request) : bool :=
  match req with
  | V2.GET_users_id _ | V2.GET_users => true
  | _ => false
  end.

Definition uses_dynamo (ev : event) : bool :=
  match ev with
  | EvDynamo _ _ => true
  | _ => false
  end.

Definition uses_pg (ev : event) : bool :=
  match ev with
  | EvPg _ _ _ => true
  | _ => false
  end.

Definition is_console_error (ev : event) : bool :=
  match ev with
  | EvConsoleError _ _ => true
  | _ => false
  end.

(** An event that cannot change a store: anything but a put, an update or
    a delete command and a statement that is not a SELECT. *)
Definition reads_only (ev : event) : bool :=
  match ev with
  | EvDynamo (GetItemCommand _ _) _ | EvDynamo (ScanCommand _) _ => true
  | EvDynamo _ _ => false
  | EvPg sql _ _ => String.prefix "SELECT " sql
  | _ => true
  end.

(** The values a body must hold for a request to pass the test of the
    handler. *)
Definition all_truthy (ks : list string) (body : list (string * jsval)) : bool :=
  forallb (fun k => truthy (get_prop k body)) ks.

(** An item with the three attributes the handlers read, and the user
    object they build from it. *)
Definition complete (item : attr_map) : bool :=
  match get_attr "userId" item, get_attr "name" item, get_attr "email" item with
  | Some _, Some _, Some _ => true
  | _, _, _ => false
  end.

Definition S_of (k : string) (item : attr_map) : jsval :=
  match get_attr k item with
  | Some a => AttrS a
  | None => VUndefined
  end.

Definition user_view (item : attr_map) : jsval :=
  VObj [("userId", S_of "userId" item); ("name", S_of "name" item);
        ("email", S_of "email" item)].

(** The [TypeError] of reading [.S] of a missing attribute. *)
Definition missing_attribute : error :=
  TypeError "Cannot read properties of undefined (reading 'S')".

(** Events of the startup log. *)
Definition is_listen (ev : Boot.boot_event) : bool :=
  match ev with
  | Boot.BListen _ => true
  | _ => false
  end.

Definition is_exit (ev : Boot.boot_event) : bool :=
  match ev with
  | Boot.BExit _ => true
  | _ => false
  end.

Definition is_pg_call (ev : Boot.boot_event) : bool :=
  match ev with
  | Boot.BConnect _ | Boot.BQuery _ _ => true
  | _ => false
  end.

(** The log of a run. *)
Definition log_of {W} (r : (error + unit) * state (Boot.boot_world W))
  : list Boot.boot_event :=
  Boot.boot_log (world (snd r)).

(** The userids of the relation are pairwise different. *)
Definition unique_userids (w : Ref.world) : Prop :=
  NoDup (map Ref.userid (Ref.pg_users w)).

(** The body of a PUT /users/:id. *)
Definition new_values (n e : string) : list (string * jsval) :=
  [("name", VStr n); ("email", VStr e)].

(** What the handler leaves in [orders] after the order call. *)
Definition orders_of (r : error + axios_response) : jsval :=
  match r with
  | inr response => data response
  | inl _ => VArr []
  end.

(** A world whose table holds an item with a key and nothing else, as
    another writer could leave it. *)
Definition incomplete_stored : Ref.world :=
  Ref.mkWorld true {[ "u9" := {[ "userId" := "u9" ]} ]} [] Ref.no_orders.

(** The request writes the record of [id]. *)
Definition about (req : V2.request) (id : string) : Prop :=
  match req with
  | V2.POST_users body => get_prop "userId" body = VStr id
  | V2.PUT_users_id id' _ | V2.DELETE_users_id id' => id' = id
  | _ => False
  end.

(** Two worlds that hold the same for [id]: what a GET /users/:id of
    [id] can see. *)
Definition same_for (id : string) (w w' : Ref.world) : Prop :=
  Ref.store_up w' = Ref.store_up w
  /\ Ref.dynamo_Users w' !! id = Ref.dynamo_Users w !! id
  /\ List.filter (Ref.userid_is (Some id)) (Ref.pg_users w')
     = List.filter (Ref.userid_is (Some id)) (Ref.pg_users w)
  /\ Ref.order_service w' = Ref.order_service w.

(** * Properties of the handlers *)

(** ** Proof automation for the monad *)

Ltac unfold_monad :=
  unfold bind, try_catch, ret, throw, await_dynamo_send,
    await_pgClient_query, await_axios_get, console_error, log in *.

(** Split on the next thing the code inspects: a flag, the validation test
    or the answer of a collaborator. *)
Ltac step :=
  match goal with
  | H : (_, _) = (_, _) |- _ => inversion H; subst; clear H
  | H : inl _ = inl _ |- _ => inversion H; subst; clear H
  | H : inr _ = inr _ |- _ => inversion H; subst; clear H
  | H : context [match ?x with _ => _ end] |- _ => destruct x eqn:?
  | H : context [if ?b then _ else _] |- _ => destruct b eqn:?
  | |- context [match ?x with _ => _ end] => destruct x eqn:?
  | |- context [if ?b then _ else _] => destruct b eqn:?
  end; simpl in *.

Lemma get_prop_absent (k : string) (body : list (string * jsval)) :
  ~ In k (map fst body) -> get_prop k body = VUndefined.
Proof.
  induction body as [| [k' v] body IH]; simpl; [reflexivity |].
  intros H. destruct (String.eqb_spec k k') as [-> | Hne].
  - exfalso. apply H. left. reflexivity.
  - apply IH. intros Hin. apply H. right. exact Hin.
Qed.

Lemma absent_or_empty_falsy k body :
  absent_or_empty k body -> truthy (get_prop k body) = false.
Proof. intros [H | H]; rewrite H; reflexivity. Qed.

Section Scan.
Context {W : Type}.

(** Building the user objects of a scan issues no call. *)
Lemma map_M_scan_user_state (l : list attr_map) (st : state W) :
  snd (V2.map_M (V2.scan_user (W := W)) l st) = st.
Proof.
  induction l as [| i l IH]; simpl; [reflexivity |].
  unfold V2.scan_user at 1, attr_S. unfold bind at 1.
  destruct (get_attr "userId" i); unfold_monad; simpl; [| reflexivity].
  destruct (get_attr "name" i); simpl; [| reflexivity].
  destruct (get_attr "email" i); simpl; [| reflexivity].
  destruct (V2.map_M V2.scan_user l st) as [[e | ys] st'] eqn:E;
    simpl in IH; subst; reflexivity.
Qed.

End Scan.

Ltac unfold_handlers :=
  unfold V2.serve, V2.handle, V2.post_users, V2.get_users_id,
    V2.put_users_id, V2.delete_users_id, V2.get_users, V2.lookup_user,
    V2.fetch_orders, attr_S in *.

(** Name the outcome of the scan's [map] and put its state back. *)
Ltac scan_outcome :=
  match goal with
  | |- context [V2.map_M V2.scan_user ?l ?st] =>
      let E := fresh "E" in
      pose proof (map_M_scan_user_state l st) as E;
      destruct (V2.map_M V2.scan_user l st) as [[? | ?] ?];
      simpl in E; subst; simpl in *
  | H : context [V2.map_M V2.scan_user ?l ?st] |- _ =>
      let E := fresh "E" in
      pose proof (map_M_scan_user_state l st) as E;
      destruct (V2.map_M V2.scan_user l st) as [[? | ?] ?];
      simpl in E; subst; simpl in *
  end.

Ltac run_handler :=
  unfold_handlers; unfold_monad; simpl in *;
  repeat (first [scan_outcome | step]).

Section Control_flow.
Context {W : Type} (env : Env W) (usePostgres : bool).

(** C4: a POST /users whose body lacks userId, name or email, or holds the
    empty string for one of them, is answered 400 with the body
    [{error: "Missing fields"}], whichever backend is active; nothing else
    happens. *)
Theorem post_users_missing_fields (body : list (string * jsval)) (st : state W) :
  absent_or_empty "userId" body \/ absent_or_empty "name" body
    \/ absent_or_empty "email" body ->
  V2.post_users env usePostgres body st
  = (inr (mkResponse 400 (VObj [("error", VStr "Missing fields")])), st).
Proof.
  intros H. unfold V2.post_users.
  destruct H as [H | [H | H]]; apply absent_or_empty_falsy in H; rewrite H;
    simpl; rewrite ?orb_true_r; reflexivity.
Qed.

(** The same test guards the update of the second revision. *)
Lemma put_users_id_missing_fields (id : string) (body : list (string * jsval))
    (st : state W) :
  absent_or_empty "name" body \/ absent_or_empty "email" body ->
  V2.put_users_id env usePostgres id body st
  = (inr (mkResponse 400 (VObj [("error", VStr "Missing fields")])), st).
Proof.
  intros H. unfold V2.put_users_id.
  destruct H as [H | H]; apply absent_or_empty_falsy in H; rewrite H;
    simpl; rewrite ?orb_true_r; reflexivity.
Qed.

(** Every handler answers: no error escapes the [try] blocks. *)
Lemma serve_answers (req : V2.request) (w : W) :
  exists res, fst (V2.serve env usePostgres req w) = inr res.
Proof.
  unfold V2.serve, V2.handle.
  destruct req; unfold V2.post_users, V2.get_users_id, V2.put_users_id,
    V2.delete_users_id, V2.get_users; unfold_monad; simpl;
    repeat step; eauto.
Qed.

(** C10: a request answered 400 has issued nothing: the world is the one
    the request found and the trace is empty, so no storage operation took
    place.  POST /users and PUT /users/:id are the requests that can be
    answered 400. *)
Theorem rejected_request_issues_nothing (req : V2.request) (w : W)
    (res : response) (st : state W) :
  V2.serve env usePostgres req w = (inr res, st) ->
  status res = 400%Z ->
  world st = w /\ trace st = [].
Proof.
  intros Hrun Hst. destruct req; run_handler;
    solve [discriminate | split; reflexivity].
Qed.

(** C7: when a call to the storage layer is rejected, whatever the
    endpoint, the answer is 500 with the body
    [{error: "Internal server error"}]; the body is this constant, so
    nothing of the error [e] is in it. *)
Theorem storage_failure_answers_500 (req : V2.request) (w : W) (e : error) :
  (exists ev, In ev (trace (snd (V2.serve env usePostgres req w)))
              /\ store_call_rejected ev = Some e) ->
  fst (V2.serve env usePostgres req w)
  = inr (mkResponse 500 (VObj [("error", VStr "Internal server error")])).
Proof.
  intros (ev & Hin & Hrej). destruct req; run_handler;
    try reflexivity;
    repeat (destruct Hin as [<- | Hin]; simpl in Hrej; try discriminate);
    try contradiction.
Qed.

(** C5: when the storage lookup of GET /users/:id binds [user] and the
    call to the order service is rejected, the answer is 200 with that
    user and [orders: []]; the failure is neither logged nor answered. *)
Theorem get_users_id_order_failure (id : string) (st st1 : state W)
    (user : jsval) (e : error) (w2 : W) :
  V2.lookup_user env usePostgres id st = (inr (inr user), st1) ->
  axios_get env (orders_url id) (world st1) = (inl e, w2) ->
  V2.get_users_id env usePostgres id st
  = (inr (mkResponse 200 (VObj [("user", user); ("orders", VArr [])])),
     mkState w2 (trace st1 ++ [EvAxios (orders_url id) (Some e)])).
Proof.
  intros Hlookup Haxios.
  unfold V2.get_users_id, V2.fetch_orders, bind at 1, try_catch at 1.
  rewrite Hlookup. unfold_monad. simpl. rewrite Haxios. reflexivity.
Qed.

(** C9: GET /users/:id awaits the storage lookup first and calls the
    order service only after it, and only for a user that was found.  For
    each backend and each outcome of the lookup the run is the one given:
    when the lookup is rejected, or resolves without a user (no [Item], a
    falsy first row), or returns an item that lacks an attribute, the
    trace holds the lookup and no order call, and the answer is 500, 404,
    500; when it resolves with a user, the trace is the resolved lookup
    followed by one order call, issued on the world the lookup has left,
    and the answer is 200 with that user and the orders. *)
Theorem get_users_id_calls_in_sequence :
  (forall id w e w1,
     dynamo_send env (GetItemCommand TABLE [("userId", mkAttr (VStr id))]) w
     = (inl e, w1) ->
     V2.serve env false (V2.GET_users_id id) w
     = (inr (mkResponse 500 (VObj [("error", VStr "Internal server error")])),
        mkState w1
          [EvDynamo (GetItemCommand TABLE [("userId", mkAttr (VStr id))])
             (Some e);
           EvConsoleError "Get user error:" e]))
  /\ (forall id w out w1,
        dynamo_send env (GetItemCommand TABLE [("userId", mkAttr (VStr id))]) w
        = (inr out, w1) ->
        Item out = None ->
        V2.serve env false (V2.GET_users_id id) w
        = (inr (mkResponse 404 (VObj [("error", VStr "User not found")])),
           mkState w1
             [EvDynamo (GetItemCommand TABLE [("userId", mkAttr (VStr id))])
                None]))
  /\ (forall id w out w1 item,
        dynamo_send env (GetItemCommand TABLE [("userId", mkAttr (VStr id))]) w
        = (inr out, w1) ->
        Item out = Some item ->
        complete item = true ->
        V2.serve env false (V2.GET_users_id id) w
        = (inr (mkResponse 200
                  (VObj [("user", user_view item);
                         ("orders",
                          orders_of (fst (axios_get env (orders_url id) w1)))])),
           mkState (snd (axios_get env (orders_url id) w1))
             [EvDynamo (GetItemCommand TABLE [("userId", mkAttr (VStr id))])
                None;
              EvAxios (orders_url id)
                (rejection (fst (axios_get env (orders_url id) w1)))]))
  /\ (forall id w out w1 item,
        dynamo_send env (GetItemCommand TABLE [("userId", mkAttr (VStr id))]) w
        = (inr out, w1) ->
        Item out = Some item ->
        complete item = false ->
        V2.serve env false (V2.GET_users_id id) w
        = (inr (mkResponse 500 (VObj [("error", VStr "Internal server error")])),
           mkState w1
             [EvDynamo (GetItemCommand TABLE [("userId", mkAttr (VStr id))])
                None;
              EvConsoleError "Get user error:" missing_attribute]))
  /\ (forall id w e w1,
        pgClient_query env "SELECT * FROM users WHERE userId=$1" [VStr id] w
        = (inl e, w1) ->
        V2.serve env true (V2.GET_users_id id) w
        = (inr (mkResponse 500 (VObj [("error", VStr "Internal server error")])),
           mkState w1
             [EvPg "SELECT * FROM users WHERE userId=$1" [VStr id] (Some e);
              EvConsoleError "Get user error:" e]))
  /\ (forall id w result w1,
        pgClient_query env "SELECT * FROM users WHERE userId=$1" [VStr id] w
        = (inr result, w1) ->
        truthy (first_row (rows result)) = false ->
        V2.serve env true (V2.GET_users_id id) w
        = (inr (mkResponse 404 (VObj [("error", VStr "User not found")])),
           mkState w1
             [EvPg "SELECT * FROM users WHERE userId=$1" [VStr id] None]))
  /\ (forall id w result w1,
        pgClient_query env "SELECT * FROM users WHERE userId=$1" [VStr id] w
        = (inr result, w1) ->
        truthy (first_row (rows result)) = true ->
        V2.serve env true (V2.GET_users_id id) w
        = (inr (mkResponse 200
                  (VObj [("user", first_row (rows result));
                         ("orders",
                          orders_of (fst (axios_get env (orders_url id) w1)))])),
           mkState (snd (axios_get env (orders_url id) w1))
             [EvPg "SELECT * FROM users WHERE userId=$1" [VStr id] None;
              EvAxios (orders_url id)
                (rejection (fst (axios_get env (orders_url id) w1)))])).
Proof.
  repeat split; intros;
    unfold V2.serve, V2.handle, V2.get_users_id, V2.lookup_user,
      V2.fetch_orders, attr_S;
    unfold_monad; simpl;
    match goal with H : _ = (_, _) |- _ => rewrite H end; simpl;
    try reflexivity.
  - rewrite H0. reflexivity.
  - rewrite H0. unfold complete in H1. unfold user_view, S_of.
    destruct (get_attr "userId" item); [| discriminate].
    destruct (get_attr "name" item); [| discriminate].
    destruct (get_attr "email" item); [| discriminate].
    simpl.
    destruct (axios_get env (orders_url id) w1) as [[e | r] w2]; reflexivity.
  - rewrite H0. unfold complete in H1.
    destruct (get_attr "userId" item); [| reflexivity].
    destruct (get_attr "name" item); [| reflexivity].
    destruct (get_attr "email" item); [discriminate | reflexivity].
  - rewrite H0. reflexivity.
  - rewrite H0. simpl.
    destruct (axios_get env (orders_url id) w1) as [[e | r] w2]; reflexivity.
Qed.

(** On the key-value backend the handlers build the user objects field by
    field: a 200 answer of GET /users/:id carries a user with exactly the
    properties userId, name, email. *)
Lemma dynamo_user_shape (id : string) (w : W) (res : response) :
  fst (V2.serve env false (V2.GET_users_id id) w) = inr res ->
  status res = 200%Z ->
  keys (field "user" (body res)) = ["userId"; "name"; "email"].
Proof.
  intros Hrun Hst. run_handler; solve [discriminate | reflexivity].
Qed.

Lemma map_M_scan_user_keys (l : list attr_map) (st st' : state W)
    (users : list jsval) :
  V2.map_M V2.scan_user l st = (inr users, st') ->
  Forall (fun u => keys u = ["userId"; "name"; "email"]) users.
Proof.
  revert users st'. induction l as [| i l IH]; intros users st' H; simpl in H.
  - unfold ret in H. inversion H. constructor.
  - unfold V2.scan_user at 1, attr_S in H. unfold bind at 1 in H.
    destruct (get_attr "userId" i); unfold_monad; simpl in H; [| discriminate].
    destruct (get_attr "name" i); simpl in H; [| discriminate].
    destruct (get_attr "email" i); simpl in H; [| discriminate].
    destruct (V2.map_M V2.scan_user l st) as [[e | ys] st1] eqn:E;
      [discriminate |].
    inversion H; subst. constructor; [reflexivity | eapply IH; eauto].
Qed.

(** The same for every element of a 200 answer of GET /users. *)
Lemma dynamo_users_shape (w : W) (res : response) :
  fst (V2.serve env false V2.GET_users w) = inr res ->
  status res = 200%Z ->
  exists users,
    body res = VArr users
    /\ Forall (fun u => keys u = ["userId"; "name"; "email"]) users.
Proof.
  intros Hrun Hst.
  unfold V2.serve, V2.handle, V2.get_users in Hrun. unfold_monad. simpl in Hrun.
  destruct (dynamo_send env (ScanCommand TABLE) w) as [[e | out] w1];
    simpl in Hrun; [inversion Hrun; subst; discriminate |].
  destruct (V2.map_M V2.scan_user (default [] (Items out))
              (mkState w1 [EvDynamo (ScanCommand TABLE) None]))
    as [[e | users] st1] eqn:E; simpl in Hrun;
    [inversion Hrun; subst; discriminate |].
  inversion Hrun; subst. eexists. split; [reflexivity |].
  eapply map_M_scan_user_keys; eauto.
Qed.

(** The first revision tests the body of POST /users as the second does. *)
Lemma v1_post_users_missing_fields (body : list (string * jsval))
    (st : state W) :
  absent_or_empty "userId" body \/ absent_or_empty "name" body
    \/ absent_or_empty "email" body ->
  V1.post_users env body st
  = (inr (mkResponse 400 (VObj [("error", VStr "Missing fields")])), st).
Proof.
  intros H. unfold V1.post_users.
  destruct H as [H | [H | H]]; apply absent_or_empty_falsy in H; rewrite H;
    simpl; rewrite ?orb_true_r; reflexivity.
Qed.

(** The update of the first revision goes to the store whatever the body
    holds, and is answered 200 or 500. *)
Lemma v1_put_users_id_always_updates (id : string)
    (body : list (string * jsval)) (st : state W) :
  exists res st' rej,
    V1.put_users_id env id body st = (inr res, st')
    /\ (status res = 200%Z \/ status res = 500%Z)
    /\ In (EvDynamo
             (UpdateItemCommand TABLE [("userId", mkAttr (VStr id))]
                "SET #n = :n, email = :e" [("#n", "name")]
                [(":n", mkAttr (get_prop "name" body));
                 (":e", mkAttr (get_prop "email" body))]) rej)
          (trace st').
Proof.
  unfold V1.put_users_id. unfold_monad. simpl.
  destruct (dynamo_send env _ (world st)) as [[e | out] w1]; simpl;
    do 3 eexists; (split; [reflexivity |]); simpl;
    (split; [auto |]); rewrite !in_app_iff; simpl; eauto 6.
Qed.

(** C2: the first revision's PUT /users/:id has no test of its body.  For
    the body [{email: "a@x.com"}], with no name, it sends the update to
    the store, with [undefined] for the name, and answers 200 or 500, not
    400. *)
Theorem v1_put_users_id_without_name (st : state W) :
  exists res st' rej,
    V1.put_users_id env "u1" [("email", VStr "a@x.com")] st = (inr res, st')
    /\ status res <> 400%Z
    /\ In (EvDynamo
             (UpdateItemCommand "Users" [("userId", mkAttr (VStr "u1"))]
                "SET #n = :n, email = :e" [("#n", "name")]
                [(":n", mkAttr VUndefined); (":e", mkAttr (VStr "a@x.com"))])
             rej)
          (trace st').
Proof.
  destruct (v1_put_users_id_always_updates "u1" [("email", VStr "a@x.com")] st)
    as (res & st' & rej & Hrun & Hst & Hin).
  exists res, st', rej. split; [exact Hrun |]. split; [| exact Hin].
  destruct Hst as [-> | ->]; discriminate.
Qed.

End Control_flow.

(** ** The reference stores *)

Section Reference.

Lemma nonempty_truthy (s : string) : s <> "" -> truthy (VStr s) = true.
Proof.
  intros H. simpl. destruct (String.eqb_spec s ""); [contradiction | reflexivity].
Qed.

Lemma nonempty_eqb (s : string) : s <> "" -> String.eqb s "" = false.
Proof. intros H. destruct (String.eqb_spec s ""); [contradiction | reflexivity]. Qed.

(** Reading an attribute of a returned item is a lookup in the stored one. *)
Lemma get_attr_rendered (l : list (string * string)) (k : string) :
  get_attr k ((fun kv => (kv.1, mkAttr (VStr kv.2))) <$> l)
  = (fun s => mkAttr (VStr s)) <$> ((list_to_map l : gmap string string) !! k).
Proof.
  induction l as [| [k' v] l IH]; simpl.
  - rewrite lookup_empty. reflexivity.
  - rewrite lookup_insert. destruct (String.eqb_spec k k') as [-> | Hne].
    + rewrite decide_True by reflexivity. reflexivity.
    + rewrite decide_False by congruence. exact IH.
Qed.

Lemma get_attr_item_out (item : gmap string string) (k : string) :
  get_attr k (Ref.item_out item) = (fun s => mkAttr (VStr s)) <$> item !! k.
Proof.
  unfold Ref.item_out. rewrite get_attr_rendered, list_to_map_to_list. reflexivity.
Qed.

Lemma user_item_lookup (u n e : string) :
  user_item u n e !! "userId" = Some u
  /\ user_item u n e !! "name" = Some n
  /\ user_item u n e !! "email" = Some e.
Proof. unfold user_item. simpl. repeat split; by simplify_map_eq. Qed.

(** An item that has the three attributes reads back as a user object. *)
Lemma lookup_user_dynamo (id : string) (w : Ref.world) (tr : list event)
    (item : gmap string string) (u n e : string) :
  Ref.store_up w = true -> id <> "" ->
  Ref.dynamo_Users w !! id = Some item ->
  item !! "userId" = Some u -> item !! "name" = Some n ->
  item !! "email" = Some e ->
  V2.lookup_user Ref.env false id (mkState w tr)
  = (inr (inr (VObj [("userId", VStr u); ("name", VStr n); ("email", VStr e)])),
     mkState w (tr ++ [EvDynamo (GetItemCommand TABLE [("userId", mkAttr (VStr id))])
                         None])).
Proof.
  intros Hup Hid Hitem Hu Hn He.
  unfold V2.lookup_user, await_dynamo_send, bind at 1. simpl.
  unfold Ref.dynamo_send. rewrite Hup. simpl. rewrite (nonempty_eqb id Hid).
  rewrite Hitem. simpl. unfold attr_S.
  rewrite !get_attr_item_out, Hu, Hn, He. reflexivity.
Qed.

(** An absent key is answered 404 before anything else is called. *)
Lemma lookup_user_dynamo_absent (id : string) (w : Ref.world) (tr : list event) :
  Ref.store_up w = true -> id <> "" ->
  Ref.dynamo_Users w !! id = None ->
  V2.lookup_user Ref.env false id (mkState w tr)
  = (inr (inl (mkResponse 404 (VObj [("error", VStr "User not found")]))),
     mkState w (tr ++ [EvDynamo (GetItemCommand TABLE [("userId", mkAttr (VStr id))])
                         None])).
Proof.
  intros Hup Hid Hitem.
  unfold V2.lookup_user, await_dynamo_send, bind at 1. simpl.
  unfold Ref.dynamo_send. rewrite Hup. simpl. rewrite (nonempty_eqb id Hid).
  rewrite Hitem. reflexivity.
Qed.

(** A row that matches reads back as the driver renders it. *)
Lemma lookup_user_postgres (id : string) (w : Ref.world) (tr : list event)
    (r : Ref.users_row) (rest : list Ref.users_row) :
  Ref.store_up w = true ->
  List.filter (Ref.userid_is (Some id)) (Ref.pg_users w) = r :: rest ->
  V2.lookup_user Ref.env true id (mkState w tr)
  = (inr (inr (Ref.row_out r)),
     mkState w (tr ++ [EvPg "SELECT * FROM users WHERE userId=$1" [VStr id] None])).
Proof.
  intros Hup Hrows.
  unfold V2.lookup_user, await_pgClient_query, bind at 1. simpl.
  unfold Ref.pgClient_query. rewrite Hup. simpl. rewrite Hrows. reflexivity.
Qed.

Lemma lookup_user_postgres_absent (id : string) (w : Ref.world) (tr : list event) :
  Ref.store_up w = true ->
  List.filter (Ref.userid_is (Some id)) (Ref.pg_users w) = [] ->
  V2.lookup_user Ref.env true id (mkState w tr)
  = (inr (inl (mkResponse 404 (VObj [("error", VStr "User not found")]))),
     mkState w (tr ++ [EvPg "SELECT * FROM users WHERE userId=$1" [VStr id] None])).
Proof.
  intros Hup Hrows.
  unfold V2.lookup_user, await_pgClient_query, bind at 1. simpl.
  unfold Ref.pgClient_query. rewrite Hup. simpl. rewrite Hrows. reflexivity.
Qed.

Lemma filter_none {A} (p : A -> bool) (l : list A) :
  existsb p l = false -> List.filter p l = [].
Proof.
  induction l as [| x l IH]; simpl; [reflexivity |].
  destruct (p x); simpl; [discriminate | exact IH].
Qed.

Lemma filter_after_delete {A} (p : A -> bool) (l : list A) :
  List.filter p (List.filter (fun x => negb (p x)) l) = [].
Proof.
  induction l as [| x l IH]; simpl; [reflexivity |].
  destruct (p x) eqn:E; simpl; [exact IH | rewrite E; exact IH].
Qed.

(** The answer of GET /users/:id once the lookup has an outcome. *)
Lemma get_users_id_found (usePostgres : bool) (id : string)
    (st st1 : state Ref.world) (user : jsval) :
  V2.lookup_user Ref.env usePostgres id st = (inr (inr user), st1) ->
  fst (V2.get_users_id Ref.env usePostgres id st)
  = inr (mkResponse 200
           (VObj [("user", user); ("orders", ref_orders (world st1) id)])).
Proof.
  intros Hlookup.
  unfold V2.get_users_id, V2.fetch_orders, bind at 1, try_catch at 1.
  rewrite Hlookup. unfold_monad. simpl. unfold Ref.axios_get, ref_orders.
  destruct (Ref.order_service (world st1) (orders_url id)); reflexivity.
Qed.

Lemma get_users_id_not_found (usePostgres : bool) (id : string)
    (st st1 : state Ref.world) (res : response) :
  V2.lookup_user Ref.env usePostgres id st = (inr (inl res), st1) ->
  V2.get_users_id Ref.env usePostgres id st = (inr res, st1).
Proof.
  intros Hlookup.
  unfold V2.get_users_id, bind at 1, try_catch at 1.
  rewrite Hlookup. reflexivity.
Qed.

(** C8: with the store reachable, DELETE /users/:id answers 200 with
    [{message: "User deleted!"}] from every state of the store, hence also
    when it holds no record for the id, and a GET /users/:id that follows
    answers 404; in both backends. *)
Theorem delete_then_get_not_found (usePostgres : bool) (id : string)
    (w : Ref.world) :
  Ref.store_up w = true -> id <> "" ->
  exists st,
    V2.serve Ref.env usePostgres (V2.DELETE_users_id id) w
    = (inr (mkResponse 200 (VObj [("message", VStr "User deleted!")])), st)
    /\ V2.serve Ref.env usePostgres (V2.GET_users_id id) (world st)
       = (inr (mkResponse 404 (VObj [("error", VStr "User not found")])),
          mkState (world st)
            [if usePostgres
             then EvPg "SELECT * FROM users WHERE userId=$1" [VStr id] None
             else EvDynamo (GetItemCommand TABLE [("userId", mkAttr (VStr id))])
                    None]).
Proof.
  intros Hup Hid. destruct usePostgres.
  - eexists. split.
    + unfold V2.serve, V2.handle, V2.delete_users_id. unfold_monad. simpl.
      unfold Ref.pgClient_query. rewrite Hup. simpl. reflexivity.
    + simpl. unfold V2.serve, V2.handle.
      apply get_users_id_not_found.
      apply lookup_user_postgres_absent; [exact Hup |].
      simpl. apply filter_after_delete.
  - eexists. split.
    + unfold V2.serve, V2.handle, V2.delete_users_id. unfold_monad. simpl.
      unfold Ref.dynamo_send. rewrite Hup. simpl.
      rewrite (nonempty_eqb id Hid). simpl. reflexivity.
    + simpl. unfold V2.serve, V2.handle.
      apply get_users_id_not_found.
      apply lookup_user_dynamo_absent; [exact Hup | exact Hid |].
      simpl. apply lookup_delete_eq.
Qed.

Lemma new_user_props (u n e : string) :
  get_prop "userId" (new_user u n e) = VStr u
  /\ get_prop "name" (new_user u n e) = VStr n
  /\ get_prop "email" (new_user u n e) = VStr e.
Proof. repeat split; reflexivity. Qed.

Lemma post_users_dynamo (w : Ref.world) (u n e : string) :
  Ref.store_up w = true -> u <> "" -> n <> "" -> e <> "" ->
  V2.serve Ref.env false (V2.POST_users (new_user u n e)) w
  = (inr (mkResponse 201 (VObj [("message", VStr "User created!")])),
     mkState
       (Ref.set_dynamo_Users (<[u := user_item u n e]> (Ref.dynamo_Users w)) w)
       [EvDynamo
          (PutItemCommand TABLE
             [("userId", mkAttr (VStr u)); ("name", mkAttr (VStr n));
              ("email", mkAttr (VStr e))]) None]).
Proof.
  intros Hup Hu Hn He.
  unfold V2.serve, V2.handle, V2.post_users. cbv zeta.
  destruct (new_user_props u n e) as (-> & -> & ->).
  rewrite !nonempty_truthy by assumption. unfold_monad. simpl.
  unfold Ref.dynamo_send. rewrite Hup. simpl.
  change (<["userId":=u]> (<["name":=n]> (<["email":=e]> ∅)))
    with (user_item u n e).
  destruct (user_item_lookup u n e) as (-> & _ & _).
  rewrite (nonempty_eqb u Hu). reflexivity.
Qed.

Lemma post_users_postgres (w : Ref.world) (u n e : string) :
  Ref.store_up w = true -> u <> "" -> n <> "" -> e <> "" ->
  V2.serve Ref.env true (V2.POST_users (new_user u n e)) w
  = if existsb (Ref.userid_is (Some u)) (Ref.pg_users w)
    then (inr (mkResponse 500 (VObj [("error", VStr "Internal server error")])),
          mkState w
            [EvPg "INSERT INTO users (userId, name, email) VALUES ($1, $2, $3)"
               [VStr u; VStr n; VStr e] (Some Ref.unique_violation);
             EvConsoleError "Create user error:" Ref.unique_violation])
    else (inr (mkResponse 201 (VObj [("message", VStr "User created!")])),
          mkState (Ref.set_pg_users (Ref.pg_users w ++ [Ref.mkRow u n e]) w)
            [EvPg "INSERT INTO users (userId, name, email) VALUES ($1, $2, $3)"
               [VStr u; VStr n; VStr e] None]).
Proof.
  intros Hup Hu Hn He.
  unfold V2.serve, V2.handle, V2.post_users. cbv zeta.
  destruct (new_user_props u n e) as (-> & -> & ->).
  rewrite !nonempty_truthy by assumption. unfold_monad. simpl.
  unfold Ref.pgClient_query. rewrite Hup. unfold Ref.pg_exec. simpl.
  destruct (existsb (Ref.userid_is (Some u)) (Ref.pg_users w)); reflexivity.
Qed.

(** C6: a POST /users for a userId that the store already holds: the
    key-value backend answers 201 and the table then maps the userId to
    the new item; the relational backend rejects the INSERT with the
    uniqueness violation of the primary key, which is answered 500 and
    leaves the relation as it was. *)
Theorem create_existing_user (w : Ref.world) (u n e : string) :
  Ref.store_up w = true -> u <> "" -> n <> "" -> e <> "" ->
  (is_Some (Ref.dynamo_Users w !! u) ->
   exists st,
     V2.serve Ref.env false (V2.POST_users (new_user u n e)) w
     = (inr (mkResponse 201 (VObj [("message", VStr "User created!")])), st)
     /\ Ref.dynamo_Users (world st) !! u = Some (user_item u n e)
     /\ Ref.pg_users (world st) = Ref.pg_users w)
  /\ (existsb (Ref.userid_is (Some u)) (Ref.pg_users w) = true ->
      V2.serve Ref.env true (V2.POST_users (new_user u n e)) w
      = (inr (mkResponse 500 (VObj [("error", VStr "Internal server error")])),
         mkState w
           [EvPg "INSERT INTO users (userId, name, email) VALUES ($1, $2, $3)"
              [VStr u; VStr n; VStr e] (Some Ref.unique_violation);
            EvConsoleError "Create user error:" Ref.unique_violation])).
Proof.
  intros Hup Hu Hn He. split.
  - intros _. eexists. split; [apply post_users_dynamo; assumption |].
    simpl. split; [apply lookup_insert_eq | reflexivity].
  - intros Hdup. rewrite post_users_postgres by assumption.
    rewrite Hdup. reflexivity.
Qed.

(** POST /users then GET /users/:id on the key-value backend: the user
    object has the posted userId, name and email. *)
Lemma post_then_get_dynamo (w : Ref.world) (u n e : string) :
  Ref.store_up w = true -> u <> "" -> n <> "" -> e <> "" ->
  exists st,
    V2.serve Ref.env false (V2.POST_users (new_user u n e)) w
    = (inr (mkResponse 201 (VObj [("message", VStr "User created!")])), st)
    /\ fst (V2.serve Ref.env false (V2.GET_users_id u) (world st))
       = inr (mkResponse 200
                (VObj [("user", VObj [("userId", VStr u); ("name", VStr n);
                                      ("email", VStr e)]);
                       ("orders", ref_orders w u)])).
Proof.
  intros Hup Hu Hn He. eexists. split; [apply post_users_dynamo; assumption |].
  simpl. unfold V2.serve, V2.handle.
  destruct (user_item_lookup u n e) as (Iu & In_ & Ie).
  erewrite get_users_id_found
    by (eapply lookup_user_dynamo; eauto; simpl; apply lookup_insert_eq).
  reflexivity.
Qed.

(** The same on the relational backend, for a userId that is not taken:
    the posted values come back, the userId under the column name
    [userid]. *)
Lemma post_then_get_postgres (w : Ref.world) (u n e : string) :
  Ref.store_up w = true -> u <> "" -> n <> "" -> e <> "" ->
  existsb (Ref.userid_is (Some u)) (Ref.pg_users w) = false ->
  exists st,
    V2.serve Ref.env true (V2.POST_users (new_user u n e)) w
    = (inr (mkResponse 201 (VObj [("message", VStr "User created!")])), st)
    /\ fst (V2.serve Ref.env true (V2.GET_users_id u) (world st))
       = inr (mkResponse 200
                (VObj [("user", VObj [("userid", VStr u); ("name", VStr n);
                                      ("email", VStr e)]);
                       ("orders", ref_orders w u)])).
Proof.
  intros Hup Hu Hn He Hfree. eexists. split.
  - rewrite post_users_postgres by assumption. rewrite Hfree. reflexivity.
  - simpl. unfold V2.serve, V2.handle.
    erewrite get_users_id_found
      by (eapply lookup_user_postgres; [exact Hup |]; simpl;
          rewrite List.filter_app, (filter_none _ _ Hfree); simpl;
          rewrite String.eqb_refl; reflexivity).
    reflexivity.
Qed.

(** *** The items of the table stay well formed *)

Lemma put_item_well_formed (a1 a2 a3 : AttributeValue) (w : Ref.world) :
  well_formed w ->
  well_formed
    (snd (Ref.dynamo_send
            (PutItemCommand TABLE [("userId", a1); ("name", a2); ("email", a3)])
            w)).
Proof.
  intros Hwf. unfold Ref.dynamo_send.
  destruct (Ref.store_up w); [| exact Hwf]. simpl.
  destruct (Ref.string_attr a1) as [s1 |]; [| exact Hwf].
  destruct (Ref.string_attr a2) as [s2 |]; [| exact Hwf].
  destruct (Ref.string_attr a3) as [s3 |]; [| exact Hwf].
  simpl. rewrite lookup_insert_eq.
  destruct (String.eqb s1 ""); [exact Hwf |].
  intros k item. simpl. rewrite lookup_insert.
  case_decide as Hk.
  - intros [= <-]. subst k. by simplify_map_eq.
  - apply Hwf.
Qed.

Lemma update_item_well_formed (id : string) (an ae : AttributeValue)
    (w : Ref.world) :
  well_formed w ->
  well_formed
    (snd (Ref.dynamo_send
            (UpdateItemCommand TABLE [("userId", mkAttr (VStr id))]
               "SET #n = :n, email = :e" [("#n", "name")]
               [(":n", an); (":e", ae)])
            w)).
Proof.
  intros Hwf. unfold Ref.dynamo_send.
  destruct (Ref.store_up w); [| exact Hwf]. simpl.
  destruct (String.eqb id ""); [exact Hwf |].
  rewrite lookup_insert_eq.
  destruct (Ref.string_attr an) as [vn |]; [| exact Hwf].
  destruct (Ref.string_attr ae) as [ve |]; [| exact Hwf].
  simpl. intros k item. simpl. rewrite lookup_insert.
  case_decide as Hk; [| apply Hwf].
  intros [= <-]. subst k.
  destruct (Ref.dynamo_Users w !! id) as [old |] eqn:Hold; simpl.
  - destruct (Hwf id old Hold) as (Hu & _ & _). by simplify_map_eq.
  - by simplify_map_eq.
Qed.

Lemma delete_item_well_formed (id : string) (w : Ref.world) :
  well_formed w ->
  well_formed
    (snd (Ref.dynamo_send
            (DeleteItemCommand TABLE [("userId", mkAttr (VStr id))]) w)).
Proof.
  intros Hwf. unfold Ref.dynamo_send.
  destruct (Ref.store_up w); [| exact Hwf]. simpl.
  destruct (String.eqb id ""); [exact Hwf |].
  intros k item. simpl. rewrite lookup_delete.
  case_decide; [discriminate | apply Hwf].
Qed.

Lemma pg_query_keeps_table (sql : string) (params : list jsval) (w : Ref.world) :
  Ref.dynamo_Users (snd (Ref.pgClient_query sql params w)) = Ref.dynamo_Users w.
Proof.
  unfold Ref.pgClient_query, Ref.pg_exec.
  repeat match goal with
         | |- context [match ?x with _ => _ end] => destruct x
         | |- context [if ?b then _ else _] => destruct b
         end; reflexivity.
Qed.

Lemma axios_get_keeps_world (url : string) (w : Ref.world) :
  snd (Ref.axios_get url w) = w.
Proof. unfold Ref.axios_get. destruct (Ref.order_service w url); reflexivity. Qed.

Lemma get_item_keeps_world (Key : attr_map) (w : Ref.world) :
  snd (Ref.dynamo_send (GetItemCommand TABLE Key) w) = w.
Proof.
  unfold Ref.dynamo_send. destruct (Ref.store_up w); [| reflexivity]. simpl.
  destruct (Ref.key_of Key); reflexivity.
Qed.

Lemma scan_keeps_world (w : Ref.world) :
  snd (Ref.dynamo_send (ScanCommand TABLE) w) = w.
Proof.
  unfold Ref.dynamo_send. destruct (Ref.store_up w); reflexivity.
Qed.

Lemma well_formed_same_table (w w' : Ref.world) :
  Ref.dynamo_Users w' = Ref.dynamo_Users w -> well_formed w -> well_formed w'.
Proof. unfold well_formed. intros ->. auto. Qed.

Ltac keep_call lem c :=
  let H := fresh "Hcall" in
  pose proof lem as H;
  destruct c as [[? | ?] ?]; simpl in H |- *.

Ltac name_call :=
  match goal with
  | |- context [Ref.pgClient_query ?sql ?ps ?w] =>
      keep_call (pg_query_keeps_table sql ps w) (Ref.pgClient_query sql ps w)
  | |- context [Ref.axios_get ?u ?w] =>
      keep_call (axios_get_keeps_world u w) (Ref.axios_get u w); subst
  | |- context [Ref.dynamo_send (GetItemCommand ?t ?k) ?w] =>
      keep_call (get_item_keeps_world k w)
        (Ref.dynamo_send (GetItemCommand t k) w); subst
  | |- context [Ref.dynamo_send (ScanCommand ?t) ?w] =>
      keep_call (scan_keeps_world w) (Ref.dynamo_send (ScanCommand t) w); subst
  | Hwf : well_formed ?w
    |- context [Ref.dynamo_send
                  (PutItemCommand ?t [("userId", ?a1); ("name", ?a2); ("email", ?a3)])
                  ?w] =>
      keep_call (put_item_well_formed a1 a2 a3 w Hwf)
        (Ref.dynamo_send
           (PutItemCommand t [("userId", a1); ("name", a2); ("email", a3)]) w)
  | Hwf : well_formed ?w
    |- context [Ref.dynamo_send
                  (UpdateItemCommand ?t [("userId", mkAttr (VStr ?id))] ?x ?ns
                     [(":n", ?an); (":e", ?ae)]) ?w] =>
      keep_call (update_item_well_formed id an ae w Hwf)
        (Ref.dynamo_send
           (UpdateItemCommand t [("userId", mkAttr (VStr id))] x ns
              [(":n", an); (":e", ae)]) w)
  | Hwf : well_formed ?w
    |- context [Ref.dynamo_send
                  (DeleteItemCommand ?t [("userId", mkAttr (VStr ?id))]) ?w] =>
      keep_call (delete_item_well_formed id w Hwf)
        (Ref.dynamo_send (DeleteItemCommand t [("userId", mkAttr (VStr id))]) w)
  | H : Ref.axios_get ?u ?w = (_, ?w1) |- _ =>
      let Hk := fresh "Hcall" in
      pose proof (axios_get_keeps_world u w) as Hk;
      rewrite H in Hk; simpl in Hk; clear H; subst
  end.

Ltac unfold_ref_handlers :=
  unfold V2.serve, V2.handle, V2.post_users, V2.get_users_id,
    V2.put_users_id, V2.delete_users_id, V2.get_users, V2.lookup_user,
    V2.fetch_orders, attr_S;
  unfold_monad;
  cbn [dynamo_send pgClient_query axios_get Ref.env world trace fst snd].

Lemma serve_well_formed (usePostgres : bool) (req : V2.request) (w : Ref.world) :
  well_formed w ->
  well_formed (world (snd (V2.serve Ref.env usePostgres req w))).
Proof.
  intros Hwf. destruct usePostgres.
  - apply (well_formed_same_table w); [| exact Hwf].
    destruct req; unfold_ref_handlers;
      repeat first [name_call | step]; repeat name_call;
      solve [reflexivity | congruence].
  - destruct req; unfold_ref_handlers;
      repeat first [name_call | scan_outcome | step]; repeat name_call;
      assumption.
Qed.

Lemma empty_world_well_formed : well_formed Ref.empty_world.
Proof. intros k item H. simpl in H. rewrite lookup_empty in H. discriminate. Qed.

Lemma filter_some {A} (p : A -> bool) (l : list A) :
  existsb p l = true -> exists x rest, List.filter p l = x :: rest.
Proof.
  induction l as [| x l IH]; simpl; [discriminate |].
  destruct (p x); simpl; eauto.
Qed.

(** GET /users/:id for a user that the active store holds, with the order
    service out of reach: 200 with [orders: []]. *)
Lemma existing_user_orders_down (usePostgres : bool) (id : string)
    (w : Ref.world) :
  Ref.store_up w = true -> id <> "" -> well_formed w ->
  (if usePostgres
   then existsb (Ref.userid_is (Some id)) (Ref.pg_users w) = true
   else is_Some (Ref.dynamo_Users w !! id)) ->
  Ref.order_service w (orders_url id) = None ->
  exists user,
    fst (V2.serve Ref.env usePostgres (V2.GET_users_id id) w)
    = inr (mkResponse 200 (VObj [("user", user); ("orders", VArr [])])).
Proof.
  intros Hup Hid Hwf Hfound Hdown. unfold V2.serve, V2.handle.
  destruct usePostgres.
  - destruct (filter_some _ _ Hfound) as (r & rest & Hrows).
    eexists. erewrite get_users_id_found
      by (eapply lookup_user_postgres; eauto).
    unfold ref_orders. simpl. rewrite Hdown. reflexivity.
  - destruct Hfound as [item Hitem].
    destruct (Hwf id item Hitem) as (Hu & [n Hn] & [e He]).
    eexists. erewrite get_users_id_found
      by (eapply lookup_user_dynamo; eauto).
    unfold ref_orders. simpl. rewrite Hdown. reflexivity.
Qed.

(** *** Sample runs *)

(** C1: on the relational backend the rows go into the answers as the
    driver returns them.  With Ann stored, GET /users/u1 and GET /users
    answer 200 with user objects whose properties are userid, name, email:
    the key is [userid], not [userId]. *)
Theorem postgres_user_shape :
  fst (V2.serve Ref.env true (V2.GET_users_id "u1") ann_stored)
  = inr (mkResponse 200
           (VObj [("user", VObj [("userid", VStr "u1"); ("name", VStr "Ann");
                                 ("email", VStr "ann@x.com")]);
                  ("orders", VArr [])]))
  /\ fst (V2.serve Ref.env true V2.GET_users ann_stored)
     = inr (mkResponse 200
              (VArr [VObj [("userid", VStr "u1"); ("name", VStr "Ann");
                           ("email", VStr "ann@x.com")]])).
Proof. split; reflexivity. Qed.

(** C3: POST /users with Ann and then GET /users/u1 on the relational
    backend, from an empty relation: both succeed, and the user object of
    the 200 answer has no [userId]; the posted id is under [userid]. *)
Theorem postgres_post_then_get :
  exists st res,
    V2.serve Ref.env true (V2.POST_users Ref.ann) Ref.empty_world
    = (inr (mkResponse 201 (VObj [("message", VStr "User created!")])), st)
    /\ fst (V2.serve Ref.env true (V2.GET_users_id "u1") (world st)) = inr res
    /\ status res = 200%Z
    /\ field "userId" (field "user" (body res)) = VUndefined
    /\ field "userid" (field "user" (body res)) = VStr "u1"
    /\ field "name" (field "user" (body res)) = VStr "Ann"
    /\ field "email" (field "user" (body res)) = VStr "ann@x.com".
Proof. do 2 eexists. repeat split; reflexivity. Qed.

(** The first revision's update with an empty name, on the reference
    store: answered 200, and Ann's name is now the empty string. *)
Example v1_put_users_id_empty_name :
  exists st,
    V1.put_users_id Ref.env "u1" [("name", VStr ""); ("email", VStr "a@x.com")]
      (mkState ann_stored [])
    = (inr (mkResponse 200 (VObj [("message", VStr "User updated!")])), st)
    /\ Ref.dynamo_Users (world st) !! "u1" = Some (user_item "u1" "" "a@x.com").
Proof. eexists. split; [reflexivity | vm_compute; reflexivity]. Qed.

End Reference.

(** ** The theorems at concrete requests *)

Section Witnesses.

(** The request of the repository's test: a body with a name only. *)
Lemma post_users_missing_fields_witness :
  (absent_or_empty "userId" [("name", VStr "Test")]
   \/ absent_or_empty "name" [("name", VStr "Test")]
   \/ absent_or_empty "email" [("name", VStr "Test")])
  /\ V2.post_users Ref.env false [("name", VStr "Test")]
       (mkState Ref.empty_world [])
     = (inr (mkResponse 400 (VObj [("error", VStr "Missing fields")])),
        mkState Ref.empty_world []).
Proof.
  assert (H : absent_or_empty "userId" [("name", VStr "Test")]
              \/ absent_or_empty "name" [("name", VStr "Test")]
              \/ absent_or_empty "email" [("name", VStr "Test")])
    by (left; left; reflexivity).
  split; [exact H |].
  exact (post_users_missing_fields Ref.env false [("name", VStr "Test")]
           (mkState Ref.empty_world []) H).
Defined.

Lemma rejected_request_issues_nothing_witness :
  V2.serve Ref.env true (V2.POST_users [("name", VStr "Test")]) ann_stored
  = (inr (mkResponse 400 missing_fields), mkState ann_stored [])
  /\ status (mkResponse 400 missing_fields) = 400%Z
  /\ world (mkState ann_stored []) = ann_stored
  /\ trace (mkState ann_stored []) = [].
Proof.
  assert (Hrun : V2.serve Ref.env true (V2.POST_users [("name", VStr "Test")])
                   ann_stored
                 = (inr (mkResponse 400 missing_fields), mkState ann_stored []))
    by reflexivity.
  assert (Hst : status (mkResponse 400 missing_fields) = 400%Z) by reflexivity.
  split; [exact Hrun |]. split; [exact Hst |].
  exact (rejected_request_issues_nothing Ref.env true _ _ _ _ Hrun Hst).
Defined.

Lemma storage_failure_answers_500_witness :
  (exists ev,
     In ev (trace (snd (V2.serve Ref.env false V2.GET_users store_down)))
     /\ store_call_rejected ev = Some Ref.connection_refused)
  /\ fst (V2.serve Ref.env false V2.GET_users store_down)
     = inr (mkResponse 500 (VObj [("error", VStr "Internal server error")])).
Proof.
  assert (H : exists ev,
             In ev (trace (snd (V2.serve Ref.env false V2.GET_users store_down)))
             /\ store_call_rejected ev = Some Ref.connection_refused).
  { exists (EvDynamo (ScanCommand TABLE) (Some Ref.connection_refused)).
    split; [left; reflexivity | reflexivity]. }
  split; [exact H |].
  exact (storage_failure_answers_500 Ref.env false V2.GET_users store_down
           Ref.connection_refused H).
Defined.

Lemma get_users_id_order_failure_witness :
  V2.get_users_id Ref.env true "u1" (mkState ann_stored_orders_down [])
  = (inr (mkResponse 200
            (VObj [("user", VObj [("userid", VStr "u1"); ("name", VStr "Ann");
                                  ("email", VStr "ann@x.com")]);
                   ("orders", VArr [])])),
     mkState ann_stored_orders_down
       [EvPg "SELECT * FROM users WHERE userId=$1" [VStr "u1"] None;
        EvAxios (orders_url "u1") (Some Ref.request_failed)]).
Proof.
  exact (get_users_id_order_failure Ref.env true "u1"
           (mkState ann_stored_orders_down [])
           (mkState ann_stored_orders_down
              [EvPg "SELECT * FROM users WHERE userId=$1" [VStr "u1"] None])
           (Ref.row_out (Ref.mkRow "u1" "Ann" "ann@x.com"))
           Ref.request_failed ann_stored_orders_down eq_refl eq_refl).
Defined.

Lemma get_users_id_calls_in_sequence_witness :
  V2.serve Ref.env false (V2.GET_users_id "u1") store_down
  = (inr (mkResponse 500 (VObj [("error", VStr "Internal server error")])),
     mkState store_down
       [EvDynamo (GetItemCommand TABLE [("userId", mkAttr (VStr "u1"))])
          (Some Ref.connection_refused);
        EvConsoleError "Get user error:" Ref.connection_refused])
  /\ V2.serve Ref.env false (V2.GET_users_id "u2") ann_stored
     = (inr (mkResponse 404 (VObj [("error", VStr "User not found")])),
        mkState ann_stored
          [EvDynamo (GetItemCommand TABLE [("userId", mkAttr (VStr "u2"))])
             None])
  /\ V2.serve Ref.env false (V2.GET_users_id "u1") ann_stored_orders_down
     = (inr (mkResponse 200
               (VObj [("user", VObj [("userId", VStr "u1"); ("name", VStr "Ann");
                                     ("email", VStr "ann@x.com")]);
                      ("orders", VArr [])])),
        mkState ann_stored_orders_down
          [EvDynamo (GetItemCommand TABLE [("userId", mkAttr (VStr "u1"))])
             None;
           EvAxios (orders_url "u1") (Some Ref.request_failed)])
  /\ V2.serve Ref.env false (V2.GET_users_id "u9") incomplete_stored
     = (inr (mkResponse 500 (VObj [("error", VStr "Internal server error")])),
        mkState incomplete_stored
          [EvDynamo (GetItemCommand TABLE [("userId", mkAttr (VStr "u9"))])
             None;
           EvConsoleError "Get user error:" missing_attribute])
  /\ V2.serve Ref.env true (V2.GET_users_id "u1") store_down
     = (inr (mkResponse 500 (VObj [("error", VStr "Internal server error")])),
        mkState store_down
          [EvPg "SELECT * FROM users WHERE userId=$1" [VStr "u1"]
             (Some Ref.connection_refused);
           EvConsoleError "Get user error:" Ref.connection_refused])
  /\ V2.serve Ref.env true (V2.GET_users_id "u2") ann_stored
     = (inr (mkResponse 404 (VObj [("error", VStr "User not found")])),
        mkState ann_stored
          [EvPg "SELECT * FROM users WHERE userId=$1" [VStr "u2"] None])
  /\ V2.serve Ref.env true (V2.GET_users_id "u1") ann_stored
     = (inr (mkResponse 200
               (VObj [("user", VObj [("userid", VStr "u1"); ("name", VStr "Ann");
                                     ("email", VStr "ann@x.com")]);
                      ("orders", VArr [])])),
        mkState ann_stored
          [EvPg "SELECT * FROM users WHERE userId=$1" [VStr "u1"] None;
           EvAxios (orders_url "u1") None]).
Proof.
  destruct (get_users_id_calls_in_sequence Ref.env)
    as (Hd_rejected & Hd_absent & Hd_found & Hd_incomplete
        & Hp_rejected & Hp_absent & Hp_found).
  split; [| split; [| split; [| split; [| split; [| split]]]]].
  - exact (Hd_rejected "u1" store_down Ref.connection_refused store_down eq_refl).
  - exact (Hd_absent "u2" ann_stored (mkOutput None None) ann_stored
             eq_refl eq_refl).
  - exact (Hd_found "u1" ann_stored_orders_down
             (mkOutput (Some (Ref.item_out (user_item "u1" "Ann" "ann@x.com")))
                None)
             ann_stored_orders_down
             (Ref.item_out (user_item "u1" "Ann" "ann@x.com"))
             eq_refl eq_refl eq_refl).
  - exact (Hd_incomplete "u9" incomplete_stored
             (mkOutput (Some (Ref.item_out {[ "userId" := "u9" ]})) None)
             incomplete_stored (Ref.item_out {[ "userId" := "u9" ]})
             eq_refl eq_refl eq_refl).
  - exact (Hp_rejected "u1" store_down Ref.connection_refused store_down eq_refl).
  - exact (Hp_absent "u2" ann_stored (mkPgResult []) ann_stored eq_refl eq_refl).
  - exact (Hp_found "u1" ann_stored
             (mkPgResult [Ref.row_out (Ref.mkRow "u1" "Ann" "ann@x.com")])
             ann_stored eq_refl eq_refl).
Defined.

Lemma delete_then_get_not_found_witness :
  Ref.store_up Ref.empty_world = true /\ "u1" <> ""
  /\ exists st,
       V2.serve Ref.env true (V2.DELETE_users_id "u1") Ref.empty_world
       = (inr (mkResponse 200 (VObj [("message", VStr "User deleted!")])), st)
       /\ V2.serve Ref.env true (V2.GET_users_id "u1") (world st)
          = (inr (mkResponse 404 (VObj [("error", VStr "User not found")])),
             mkState (world st)
               [EvPg "SELECT * FROM users WHERE userId=$1" [VStr "u1"] None]).
Proof.
  assert (Hup : Ref.store_up Ref.empty_world = true) by reflexivity.
  assert (Hid : "u1" <> "") by discriminate.
  split; [exact Hup |]. split; [exact Hid |].
  exact (delete_then_get_not_found true "u1" Ref.empty_world Hup Hid).
Defined.

Lemma create_existing_user_witness :
  (is_Some (Ref.dynamo_Users ann_stored !! "u1")
   /\ existsb (Ref.userid_is (Some "u1")) (Ref.pg_users ann_stored) = true)
  /\ (exists st,
        V2.serve Ref.env false (V2.POST_users (new_user "u1" "Bob" "bob@x.com"))
          ann_stored
        = (inr (mkResponse 201 (VObj [("message", VStr "User created!")])), st)
        /\ Ref.dynamo_Users (world st) !! "u1"
           = Some (user_item "u1" "Bob" "bob@x.com")
        /\ Ref.pg_users (world st) = Ref.pg_users ann_stored)
  /\ V2.serve Ref.env true (V2.POST_users (new_user "u1" "Bob" "bob@x.com"))
       ann_stored
     = (inr (mkResponse 500 (VObj [("error", VStr "Internal server error")])),
        mkState ann_stored
          [EvPg "INSERT INTO users (userId, name, email) VALUES ($1, $2, $3)"
             [VStr "u1"; VStr "Bob"; VStr "bob@x.com"]
             (Some Ref.unique_violation);
           EvConsoleError "Create user error:" Ref.unique_violation]).
Proof.
  assert (Hd : is_Some (Ref.dynamo_Users ann_stored !! "u1")).
  { exists (user_item "u1" "Ann" "ann@x.com"). vm_compute. reflexivity. }
  assert (Hp : existsb (Ref.userid_is (Some "u1")) (Ref.pg_users ann_stored)
               = true) by reflexivity.
  pose proof (create_existing_user ann_stored "u1" "Bob" "bob@x.com" eq_refl
                ltac:(discriminate) ltac:(discriminate) ltac:(discriminate))
    as [Hdynamo Hpostgres].
  split; [split; [exact Hd | exact Hp] |].
  split; [exact (Hdynamo Hd) | exact (Hpostgres Hp)].
Defined.

End Witnesses.

(** * Further properties *)

(** ** What every request does, whatever the stores do *)

Section Requests.
Context {W : Type} (env : Env W) (usePostgres : bool).

(** Every request is answered, with one of the statuses of its endpoint:
    no error leaves a handler. *)
Theorem answer_status (req : V2.request) (w : W) :
  exists res,
    fst (V2.serve env usePostgres req w) = inr res
    /\ In (status res) (allowed_status req).
Proof.
  destruct req; run_handler; eexists; (split; [reflexivity |]); simpl; auto.
Qed.

(** A process talks to one store only: with [usePostgres] no command goes
    to DynamoDB, without it no statement goes to PostgreSQL. *)
Theorem one_backend_per_process (req : V2.request) (w : W) :
  existsb (if usePostgres then uses_dynamo else uses_pg)
    (trace (snd (V2.serve env usePostgres req w))) = false.
Proof.
  destruct usePostgres, req; run_handler; reflexivity.
Qed.

(** A request issues one storage call, or none when it is answered 400;
    the order service is called once by a GET /users/:id that is answered
    200 and by nothing else. *)
Theorem calls_per_request (req : V2.request) (w : W) (res : response) :
  fst (V2.serve env usePostgres req w) = inr res ->
  length (List.filter is_store_call
            (trace (snd (V2.serve env usePostgres req w))))
  = (if (status res =? 400)%Z then 0 else 1)
  /\ length (List.filter is_order_call
               (trace (snd (V2.serve env usePostgres req w))))
     = (if is_get_users_id req && (status res =? 200)%Z then 1 else 0).
Proof.
  intros Hrun. destruct req; run_handler; split; reflexivity.
Qed.

(** [console.error] is called exactly for the requests answered 500. *)
Theorem logged_iff_500 (req : V2.request) (w : W) (res : response) :
  fst (V2.serve env usePostgres req w) = inr res ->
  (status res = 500%Z
   <-> existsb is_console_error
         (trace (snd (V2.serve env usePostgres req w))) = true).
Proof.
  intros Hrun. destruct req; run_handler; split; intros H;
    solve [discriminate | reflexivity].
Qed.

(** The two GET endpoints send nothing that writes: no put, update or
    delete command and no statement other than a SELECT. *)
Theorem get_reads_only (req : V2.request) (w : W) :
  is_get req = true ->
  forallb reads_only (trace (snd (V2.serve env usePostgres req w))) = true.
Proof.
  intros Hget. destruct req; try discriminate; run_handler; reflexivity.
Qed.

Lemma post_users_test (body : list (string * jsval)) :
  negb (truthy (get_prop "userId" body)) || negb (truthy (get_prop "name" body))
    || negb (truthy (get_prop "email" body))
  = negb (all_truthy ["userId"; "name"; "email"] body).
Proof.
  unfold all_truthy. simpl forallb.
  destruct (truthy (get_prop "userId" body)),
    (truthy (get_prop "name" body)), (truthy (get_prop "email" body));
    reflexivity.
Qed.

Lemma put_users_id_test (body : list (string * jsval)) :
  negb (truthy (get_prop "name" body)) || negb (truthy (get_prop "email" body))
  = negb (all_truthy ["name"; "email"] body).
Proof.
  unfold all_truthy. simpl forallb.
  destruct (truthy (get_prop "name" body)), (truthy (get_prop "email" body));
    reflexivity.
Qed.

(** The test of the bodies is JavaScript truthiness: POST /users is
    answered 400 exactly when userId, name or email is falsy ([undefined],
    [null], [false], [0] or the empty string), PUT /users/:id exactly when
    name or email is. *)
Theorem rejected_iff_falsy (w : W) (res : response) :
  (forall body,
     fst (V2.serve env usePostgres (V2.POST_users body) w) = inr res ->
     (status res = 400%Z
      <-> all_truthy ["userId"; "name"; "email"] body = false))
  /\ (forall id body,
        fst (V2.serve env usePostgres (V2.PUT_users_id id body) w) = inr res ->
        (status res = 400%Z <-> all_truthy ["name"; "email"] body = false)).
Proof.
  split.
  - intros body Hrun.
    unfold V2.serve, V2.handle, V2.post_users in Hrun. cbv zeta in Hrun.
    rewrite post_users_test in Hrun.
    destruct (all_truthy ["userId"; "name"; "email"] body);
      unfold_monad; simpl in Hrun; repeat step;
      split; intros H; solve [discriminate | reflexivity].
  - intros id body Hrun.
    unfold V2.serve, V2.handle, V2.put_users_id in Hrun. cbv zeta in Hrun.
    rewrite put_users_id_test in Hrun.
    destruct (all_truthy ["name"; "email"] body);
      unfold_monad; simpl in Hrun; repeat step;
      split; intros H; solve [discriminate | reflexivity].
Qed.

End Requests.

(** ** Items, orders and the two revisions *)

Section Items.
Context {W : Type} (env : Env W).

Lemma attr_S_complete (item : attr_map) (st : state W) :
  complete item = true ->
  attr_S "userId" item st = (inr (S_of "userId" item), st)
  /\ attr_S "name" item st = (inr (S_of "name" item), st)
  /\ attr_S "email" item st = (inr (S_of "email" item), st).
Proof.
  unfold complete, attr_S, S_of. intros H.
  destruct (get_attr "userId" item); [| discriminate].
  destruct (get_attr "name" item); [| discriminate].
  destruct (get_attr "email" item); [| discriminate].
  repeat split; reflexivity.
Qed.

Lemma attr_S_incomplete (item : attr_map) (st : state W) :
  complete item = false ->
  (userId <- attr_S "userId" item ;;
   name <- attr_S "name" item ;;
   email <- attr_S "email" item ;;
   ret (VObj [("userId", userId); ("name", name); ("email", email)])) st
  = (inl missing_attribute, st).
Proof.
  unfold complete, attr_S. intros H. unfold_monad.
  destruct (get_attr "userId" item); [| reflexivity].
  destruct (get_attr "name" item); [| reflexivity].
  destruct (get_attr "email" item); [discriminate | reflexivity].
Qed.

Lemma scan_user_outcome (item : attr_map) (st : state W) :
  V2.scan_user item st
  = (if complete item then inr (user_view item) else inl missing_attribute, st).
Proof.
  destruct (complete item) eqn:E.
  - unfold V2.scan_user, user_view.
    destruct (attr_S_complete item st E) as (Hu & Hn & He).
    unfold bind. rewrite Hu, Hn, He. reflexivity.
  - apply attr_S_incomplete. exact E.
Qed.

(** The [map] over scanned items builds one user per item, or throws at
    the first item that lacks an attribute. *)
Lemma map_M_scan_user_outcome (l : list attr_map) (st : state W) :
  V2.map_M V2.scan_user l st
  = (if forallb complete l then inr (map user_view l) else inl missing_attribute,
     st).
Proof.
  induction l as [| item l IH]; [reflexivity |].
  simpl. unfold bind at 1. rewrite scan_user_outcome.
  destruct (complete item); simpl; [| reflexivity].
  unfold bind at 1. rewrite IH.
  destruct (forallb complete l); reflexivity.
Qed.

(** GET /users on the key-value backend, once the scan has resolved:
    the answer is 200 with one user object per scanned item, in the order
    of the scan, each built from the [S] values of the item ([[]] when the
    scan returns no [Items]); if an item lacks userId, name or email the
    answer is 500 instead. *)
Theorem get_users_scanned (w w1 : W) (out : dynamo_output) :
  dynamo_send env (ScanCommand TABLE) w = (inr out, w1) ->
  fst (V2.serve env false V2.GET_users w)
  = inr (if forallb complete (default [] (Items out))
         then mkResponse 200 (VArr (map user_view (default [] (Items out))))
         else mkResponse 500 (VObj [("error", VStr "Internal server error")])).
Proof.
  intros Hscan. unfold V2.serve, V2.handle, V2.get_users.
  unfold try_catch, bind at 1, await_dynamo_send. simpl. rewrite Hscan.
  unfold bind at 1. rewrite map_M_scan_user_outcome.
  destruct (forallb complete (default [] (Items out))); reflexivity.
Qed.

(** The first revision reads the attributes after the order lookup: for
    an item that lacks userId, name or email it calls the order service
    and then answers 500, where the second revision answers 500 without
    the call. *)
Theorem v1_get_users_id_incomplete_item (id : string) (w w1 : W)
    (out : dynamo_output) (item : attr_map) :
  dynamo_send env (GetItemCommand TABLE [("userId", mkAttr (VStr id))]) w
  = (inr out, w1) ->
  Item out = Some item ->
  complete item = false ->
  V1.serve env (V2.GET_users_id id) w
  = (inr (mkResponse 500 (VObj [("error", VStr "Internal server error")])),
     mkState (snd (axios_get env (orders_url id) w1))
       [EvDynamo (GetItemCommand TABLE [("userId", mkAttr (VStr id))]) None;
        EvAxios (orders_url id) (rejection (fst (axios_get env (orders_url id) w1)));
        EvConsoleError "DynamoDB Get error" missing_attribute]).
Proof.
  intros Hget Hitem Hinc.
  unfold V1.serve, V1.handle, V1.get_users_id.
  unfold try_catch at 1, bind at 1, await_dynamo_send. simpl.
  rewrite Hget, Hitem. simpl.
  unfold bind at 1, try_catch at 1, bind at 1, await_axios_get. simpl.
  unfold complete in Hinc. unfold attr_S, bind, throw, ret.
  destruct (axios_get env (orders_url id) w1) as [[e | r] w2]; simpl;
    destruct (get_attr "userId" item); try reflexivity;
    destruct (get_attr "name" item); try reflexivity;
    destruct (get_attr "email" item); try reflexivity; discriminate.
Qed.

(** The second revision without [usePostgres] answers as the first does,
    for every behaviour of the store and the order service, except that it
    tests the body of a PUT: on every request whose body passes that test
    the two answers are equal, and so are the worlds they leave, the
    GET /users/:id of an incomplete item apart. *)
Theorem revisions_agree (req : V2.request) (w : W) :
  match req with
  | V2.PUT_users_id _ body => all_truthy ["name"; "email"] body = true
  | _ => True
  end ->
  fst (V1.serve env req w) = fst (V2.serve env false req w)
  /\ (is_get_users_id req = false ->
      world (snd (V1.serve env req w))
      = world (snd (V2.serve env false req w))).
Proof.
  intros Hbody. destruct req as [body | id | id body | id |];
    unfold V1.serve, V1.handle, V2.serve, V2.handle.
  - unfold V1.post_users, V2.post_users. cbv zeta.
    rewrite post_users_test.
    destruct (all_truthy ["userId"; "name"; "email"] body);
      unfold_monad; simpl; [| split; reflexivity].
    destruct (dynamo_send env _ w) as [[e | out] w1]; split; reflexivity.
  - split; [| discriminate].
    unfold V1.get_users_id, V2.get_users_id, V2.lookup_user, V2.fetch_orders,
      attr_S.
    unfold_monad. simpl.
    destruct (dynamo_send env _ w) as [[e | out] w1]; simpl; [reflexivity |].
    destruct (Item out) as [item |]; simpl; [| reflexivity].
    destruct (axios_get env (orders_url id) w1) as [[e | r] w2] eqn:Ha; simpl;
      destruct (get_attr "userId" item); simpl; try reflexivity;
      destruct (get_attr "name" item); simpl; try reflexivity;
      destruct (get_attr "email" item); simpl; rewrite ?Ha; reflexivity.
  - unfold V1.put_users_id, V2.put_users_id. cbv zeta.
    rewrite put_users_id_test, Hbody. unfold_monad. simpl.
    destruct (dynamo_send env _ w) as [[e | out] w1]; split; reflexivity.
  - unfold V1.delete_users_id, V2.delete_users_id. unfold_monad. simpl.
    destruct (dynamo_send env _ w) as [[e | out] w1]; split; reflexivity.
  - unfold V1.get_users, V2.get_users. unfold_monad. simpl.
    destruct (dynamo_send env (ScanCommand TABLE) w) as [[e | out] w1];
      simpl; [split; reflexivity |].
    rewrite map_M_scan_user_outcome.
    destruct (forallb complete (default [] (Items out))); split; reflexivity.
Qed.

End Items.

(** ** Startup *)

Ltac unfold_boot :=
  unfold Boot.boot, Boot.start, Boot.start_v1, Boot.initDB, Boot.console_log,
    Boot.console_error, Boot.effect, Boot.await_connect, Boot.await_query,
    Boot.await_createTable, Boot.record, log_of in *;
  unfold bind, try_catch, ret, throw in *.

Lemma ends_with_iff (suffix s : string) :
  Boot.ends_with suffix s = true <-> exists p, s = String.append p suffix.
Proof.
  induction s as [| c s IH]; cbn [Boot.ends_with].
  - rewrite orb_false_r. split.
    + intros H. apply String.eqb_eq in H. exists "". simpl. exact H.
    + intros [p Hp]. apply String.eqb_eq. destruct p; simpl in Hp;
        [exact Hp | discriminate].
  - rewrite orb_true_iff, IH. split.
    + intros [H | [p Hp]].
      * apply String.eqb_eq in H. exists "". simpl. exact H.
      * exists (String c p). simpl. rewrite Hp. reflexivity.
    + intros [p Hp]. destruct p as [| c' p]; simpl in Hp.
      * left. apply String.eqb_eq. exact Hp.
      * right. inversion Hp; subst. exists p. reflexivity.
Qed.

Section Startup.
Context {W : Type} (benv : Boot.BootEnv W).

(** On the key-value backend [initDB] always resolves: it sends one
    [createTable]; a rejection named ResourceInUseException is reported
    with [console.log], any other rejection with [console.error], and
    neither is passed on. *)
Theorem initDB_dynamo_resolves (w : W) :
  Boot.boot (Boot.initDB benv false) w
  = (inr tt,
     mkState
       (Boot.mkBoot (snd (Boot.ddb_createTable benv Boot.users_table_input w))
          [Boot.BCreateTable Boot.users_table_input
             (rejection (fst (Boot.ddb_createTable benv Boot.users_table_input w)));
           match fst (Boot.ddb_createTable benv Boot.users_table_input w) with
           | inr _ => Boot.BConsoleLog ["Created DynamoDB table:"; "Users"]
           | inl e =>
               if String.eqb (err_name e) "ResourceInUseException"
               then Boot.BConsoleLog ["DynamoDB table already exists:"; "Users"]
               else Boot.BConsoleError "DynamoDB Table create error:" e
           end])
       []).
Proof.
  unfold_boot. simpl.
  destruct (Boot.ddb_createTable benv Boot.users_table_input w) as [[e | []] w1];
    simpl; [| reflexivity].
  destruct (String.eqb (err_name e) "ResourceInUseException"); reflexivity.
Qed.

(** On the relational backend [initDB] connects, then sends the CREATE
    TABLE statement, and rejects with the error of the first of the two
    that fails; after a failed connect no statement is sent. *)
Theorem initDB_postgres_outcome (w : W) :
  Boot.boot (Boot.initDB benv true) w
  = match Boot.pgClient_connect benv w with
    | (inl e, w1) =>
        (inl e, mkState (Boot.mkBoot w1 [Boot.BConnect (Some e)]) [])
    | (inr _, w1) =>
        match Boot.pgClient_query benv Boot.create_users_table w1 with
        | (inl e, w2) =>
            (inl e,
             mkState
               (Boot.mkBoot w2
                  [Boot.BConnect None;
                   Boot.BQuery Boot.create_users_table (Some e)]) [])
        | (inr _, w2) =>
            (inr tt,
             mkState
               (Boot.mkBoot w2
                  [Boot.BConnect None;
                   Boot.BQuery Boot.create_users_table None;
                   Boot.BConsoleLog
                     ["Connected to PostgreSQL, ensured users table exists"]])
               [])
        end
    end.
Proof.
  unfold_boot. simpl.
  destruct (Boot.pgClient_connect benv w) as [[e | []] w1]; simpl;
    [reflexivity |].
  destruct (Boot.pgClient_query benv Boot.create_users_table w1)
    as [[e | []] w2]; reflexivity.
Qed.

(** Run directly, the second revision listens exactly when [initDB] has
    resolved: its log is the log of [initDB] followed by the listen and
    its message, or, when [initDB] rejects with [e], by the report of [e]
    and [process.exit(1)]. *)
Theorem start_after_initDB (usePostgres : bool) (argv1 env_PORT : option string)
    (w : W) :
  Boot.run_directly argv1 = true ->
  log_of (Boot.boot (Boot.start benv usePostgres argv1 env_PORT) w)
  = (log_of (Boot.boot (Boot.initDB benv usePostgres) w)
     ++ match fst (Boot.boot (Boot.initDB benv usePostgres) w) with
       | inr _ =>
           [Boot.BListen (Boot.PORT env_PORT);
            Boot.BConsoleLog
              ["User microservice running on port "
               +:+ Boot.PORT_text env_PORT +:+ " (using "
               +:+ (if usePostgres then "PostgreSQL" else "DynamoDB")
               +:+ ")"]]
       | inl e =>
           [Boot.BConsoleError "Error initializing DB:" e; Boot.BExit 1]
       end)%list.
Proof.
  intros Hrun. unfold Boot.start. rewrite Hrun.
  unfold Boot.boot, log_of.
  unfold try_catch at 1, bind at 1.
  destruct (Boot.initDB benv usePostgres (mkState (Boot.mkBoot w []) []))
    as [[e | []] st1]; unfold_boot; simpl; rewrite <- ?app_assoc; reflexivity.
Qed.

(** Hence on the key-value backend a direct run always listens and never
    exits, whatever [createTable] answers, and calls nothing of the
    relational client. *)
Theorem start_dynamo_listens (argv1 env_PORT : option string) (w : W) :
  Boot.run_directly argv1 = true ->
  fst (Boot.boot (Boot.start benv false argv1 env_PORT) w) = inr tt
  /\ In (Boot.BListen (Boot.PORT env_PORT))
       (log_of (Boot.boot (Boot.start benv false argv1 env_PORT) w))
  /\ existsb is_exit
       (log_of (Boot.boot (Boot.start benv false argv1 env_PORT) w)) = false
  /\ existsb is_pg_call
       (log_of (Boot.boot (Boot.start benv false argv1 env_PORT) w)) = false.
Proof.
  intros Hrun. unfold Boot.start. rewrite Hrun. unfold_boot. simpl.
  destruct (Boot.ddb_createTable benv Boot.users_table_input w) as [[e | []] w1];
    simpl; [destruct (String.eqb (err_name e) "ResourceInUseException") |];
    simpl; repeat split; auto.
Qed.

(** On the relational backend a direct run whose connect or CREATE TABLE
    is rejected never listens and ends with [process.exit(1)]. *)
Theorem start_postgres_failure (argv1 env_PORT : option string) (w : W)
    (e : error) :
  Boot.run_directly argv1 = true ->
  fst (Boot.boot (Boot.initDB benv true) w) = inl e ->
  existsb is_listen
    (log_of (Boot.boot (Boot.start benv true argv1 env_PORT) w)) = false
  /\ exists before,
       log_of (Boot.boot (Boot.start benv true argv1 env_PORT) w)
       = (before
          ++ [Boot.BConsoleError "Error initializing DB:" e; Boot.BExit 1])%list.
Proof.
  intros Hrun Hinit. unfold Boot.start. rewrite Hrun.
  unfold_boot. simpl in *.
  destruct (Boot.pgClient_connect benv w) as [[e1 | []] w1]; simpl in *.
  - inversion Hinit; subst. split; [reflexivity |].
    exists [Boot.BConnect (Some e)]. reflexivity.
  - destruct (Boot.pgClient_query benv Boot.create_users_table w1)
      as [[e2 | []] w2]; simpl in *; [| discriminate].
    inversion Hinit; subst. split; [reflexivity |].
    exists [Boot.BConnect None; Boot.BQuery Boot.create_users_table (Some e)].
    reflexivity.
Qed.

(** When the file is not run as a path that ends in server.mjs (it is
    imported, as the test does), nothing is started: no store is
    contacted and the server does not listen. *)
Theorem start_when_imported (usePostgres : bool) (argv1 env_PORT : option string)
    (w : W) :
  (forall p, argv1 <> Some (String.append p "server.mjs")) ->
  Boot.boot (Boot.start benv usePostgres argv1 env_PORT) w
  = (inr tt, mkState (Boot.mkBoot w []) []).
Proof.
  intros Hnot. unfold Boot.start.
  destruct (Boot.run_directly argv1) eqn:Hrun; [| reflexivity].
  exfalso. unfold Boot.run_directly in Hrun.
  destruct argv1 as [s |]; [| discriminate].
  apply andb_true_iff in Hrun. destruct Hrun as [_ Hends].
  apply ends_with_iff in Hends. destruct Hends as [p ->].
  exact (Hnot p eq_refl).
Qed.

(** The first revision listens before it looks at the table: its startup
    always resolves, the listen comes first, then one [createTable]; a
    rejection named ResourceInUseException is passed over in silence, any
    other one is reported with [console.error]. *)
Theorem start_v1_listens_first (env_PORT : option string) (w : W) :
  Boot.boot (Boot.start_v1 benv env_PORT) w
  = (inr tt,
     mkState
       (Boot.mkBoot (snd (Boot.ddb_createTable benv Boot.users_table_input w))
          (([Boot.BListen (Boot.PORT env_PORT);
            Boot.BConsoleLog
              ["User microservice running on port " +:+ Boot.PORT_text env_PORT];
            Boot.BCreateTable Boot.users_table_input
              (rejection (fst (Boot.ddb_createTable benv Boot.users_table_input w)))]
           ++ match fst (Boot.ddb_createTable benv Boot.users_table_input w) with
              | inr _ => [Boot.BConsoleLog ["Created DynamoDB table:"; "Users"]]
              | inl e =>
                  if String.eqb (err_name e) "ResourceInUseException"
                  then []
                  else [Boot.BConsoleError "Table create error" e]
              end)%list))
       []).
Proof.
  unfold_boot. simpl.
  destruct (Boot.ddb_createTable benv Boot.users_table_input w) as [[e | []] w1];
    simpl; [| reflexivity].
  destruct (String.eqb (err_name e) "ResourceInUseException"); reflexivity.
Qed.

End Startup.

(** ** The handlers keep no state of their own *)

Section Invariants.
Context {W : Type} (env : Env W) (P : W -> Prop).
Context (Hdynamo : forall c w, P w -> P (snd (dynamo_send env c w))).
Context (Hpg : forall sql ps w, P w -> P (snd (pgClient_query env sql ps w))).
Context (Haxios : forall url w, P w -> P (snd (axios_get env url w))).

Ltac use_call :=
  match goal with
  | Hc : dynamo_send env ?c ?w = (_, ?w1), Hw : P ?w |- _ =>
      lazymatch goal with
      | _ : P w1 |- _ => fail
      | _ => let H := fresh "HP" in
             pose proof (Hdynamo c w Hw) as H; rewrite Hc in H; simpl in H
      end
  | Hc : pgClient_query env ?sql ?ps ?w = (_, ?w1), Hw : P ?w |- _ =>
      lazymatch goal with
      | _ : P w1 |- _ => fail
      | _ => let H := fresh "HP" in
             pose proof (Hpg sql ps w Hw) as H; rewrite Hc in H; simpl in H
      end
  | Hc : axios_get env ?u ?w = (_, ?w1), Hw : P ?w |- _ =>
      lazymatch goal with
      | _ : P w1 |- _ => fail
      | _ => let H := fresh "HP" in
             pose proof (Haxios u w Hw) as H; rewrite Hc in H; simpl in H
      end
  end.

Lemma serve_world (usePostgres : bool) (req : V2.request) (w : W) :
  P w -> P (world (snd (V2.serve env usePostgres req w))).
Proof.
  intros Hw. destruct req; run_handler; repeat use_call; assumption.
Qed.

End Invariants.


(** ** More on the reference stores *)

Section Reference_more.

Lemma dynamo_send_keeps_relation (c : dynamo_command) (w : Ref.world) :
  Ref.pg_users (snd (Ref.dynamo_send c w)) = Ref.pg_users w.
Proof.
  unfold Ref.dynamo_send, Ref.dynamo_exec.
  repeat match goal with
         | |- context [match ?x with _ => _ end] => destruct x
         | |- context [if ?b then _ else _] => destruct b
         end; reflexivity.
Qed.

Lemma userid_is_eq (id : string) (r : Ref.users_row) :
  Ref.userid_is (Some id) r = true <-> Ref.userid r = id.
Proof. apply String.eqb_eq. Qed.

Lemma not_taken (id : string) (t : list Ref.users_row) :
  existsb (Ref.userid_is (Some id)) t = false -> ~ In id (map Ref.userid t).
Proof.
  intros H Hin. apply in_map_iff in Hin. destruct Hin as (r & Hr & Hin).
  assert (existsb (Ref.userid_is (Some id)) t = true) as Ht.
  { apply existsb_exists. exists r. split; [exact Hin | apply userid_is_eq, Hr]. }
  congruence.
Qed.

Lemma update_keeps_userids (u : option string) (n e : string)
    (t : list Ref.users_row) :
  map Ref.userid
    (map (fun r => if Ref.userid_is u r then Ref.mkRow (Ref.userid r) n e else r) t)
  = map Ref.userid t.
Proof.
  induction t as [| r t IH]; simpl; [reflexivity |].
  rewrite IH. destruct (Ref.userid_is u r); reflexivity.
Qed.

Lemma NoDup_map_filter {A B} (f : A -> B) (p : A -> bool) (l : list A) :
  NoDup (map f l) -> NoDup (map f (List.filter p l)).
Proof.
  induction l as [| x l IH]; simpl; [auto |].
  intros H. apply NoDup_cons in H. destruct H as [Hx Hl].
  destruct (p x); simpl; [| auto].
  apply NoDup_cons. split; [| auto].
  intros Hin. apply Hx. apply list_elem_of_In in Hin. apply list_elem_of_In.
  apply in_map_iff in Hin. destruct Hin as (y & Hy & Hin).
  apply in_map_iff. exists y. split; [exact Hy |].
  apply filter_In in Hin. tauto.
Qed.

Lemma pg_query_keeps_unique (sql : string) (ps : list jsval) (w : Ref.world) :
  unique_userids w -> unique_userids (snd (Ref.pgClient_query sql ps w)).
Proof.
  unfold unique_userids, Ref.pgClient_query, Ref.pg_exec. intros Hw.
  repeat match goal with
         | |- context [match ?x with _ => _ end] => destruct x eqn:?
         | |- context [if ?b then _ else _] => destruct b eqn:?
         end; simpl; try exact Hw.
  - rewrite map_app. simpl. apply NoDup_app. split; [exact Hw |].
    split; [| apply NoDup_singleton].
    intros x Hx Hx'. apply list_elem_of_In in Hx.
    apply list_elem_of_singleton in Hx'. subst x.
    eapply not_taken; eauto.
  - rewrite update_keeps_userids. exact Hw.
  - apply NoDup_map_filter. exact Hw.
Qed.

(** The primary key holds across requests: if the userids of the
    relation are pairwise different before a request, they are after it,
    whatever the request and the backend in use. *)
Theorem userids_stay_unique (usePostgres : bool) (req : V2.request)
    (w : Ref.world) :
  unique_userids w ->
  unique_userids (world (snd (V2.serve Ref.env usePostgres req w))).
Proof.
  apply (serve_world Ref.env unique_userids).
  - intros c w0 H. unfold unique_userids. simpl.
    rewrite dynamo_send_keeps_relation. exact H.
  - intros sql ps w0 H. apply pg_query_keeps_unique. exact H.
  - intros url w0 H. simpl. rewrite axios_get_keeps_world. exact H.
Qed.

Lemma new_values_props (n e : string) :
  get_prop "name" (new_values n e) = VStr n
  /\ get_prop "email" (new_values n e) = VStr e.
Proof. split; reflexivity. Qed.

Lemma put_users_id_dynamo (id n e : string) (w : Ref.world) :
  Ref.store_up w = true -> id <> "" -> n <> "" -> e <> "" ->
  V2.serve Ref.env false (V2.PUT_users_id id (new_values n e)) w
  = (inr (mkResponse 200 (VObj [("message", VStr "User updated!")])),
     mkState
       (Ref.set_dynamo_Users
          (<[id := <["email" := e]>
                     (<["name" := n]>
                        (default {[ "userId" := id ]} (Ref.dynamo_Users w !! id)))]>
             (Ref.dynamo_Users w)) w)
       [EvDynamo
          (UpdateItemCommand TABLE [("userId", mkAttr (VStr id))]
             "SET #n = :n, email = :e" [("#n", "name")]
             [(":n", mkAttr (VStr n)); (":e", mkAttr (VStr e))]) None]).
Proof.
  intros Hup Hid Hn He.
  unfold V2.serve, V2.handle, V2.put_users_id. cbv zeta.
  destruct (new_values_props n e) as (-> & ->).
  rewrite !nonempty_truthy by assumption. unfold_monad. simpl.
  unfold Ref.dynamo_send. rewrite Hup. simpl.
  rewrite (nonempty_eqb id Hid). rewrite lookup_insert_eq. reflexivity.
Qed.

Lemma put_users_id_postgres (id n e : string) (w : Ref.world) :
  Ref.store_up w = true -> n <> "" -> e <> "" ->
  V2.serve Ref.env true (V2.PUT_users_id id (new_values n e)) w
  = (inr (mkResponse 200 (VObj [("message", VStr "User updated!")])),
     mkState
       (if existsb (Ref.userid_is (Some id)) (Ref.pg_users w)
        then Ref.set_pg_users
               (map (fun r => if Ref.userid_is (Some id) r
                              then Ref.mkRow (Ref.userid r) n e else r)
                  (Ref.pg_users w)) w
        else w)
       [EvPg "UPDATE users SET name=$1, email=$2 WHERE userId=$3"
          [VStr n; VStr e; VStr id] None]).
Proof.
  intros Hup Hn He.
  unfold V2.serve, V2.handle, V2.put_users_id. cbv zeta.
  destruct (new_values_props n e) as (-> & ->).
  rewrite !nonempty_truthy by assumption. unfold_monad. simpl.
  unfold Ref.pgClient_query. rewrite Hup. unfold Ref.pg_exec. simpl.
  destruct (existsb (Ref.userid_is (Some id)) (Ref.pg_users w)); reflexivity.
Qed.

Lemma filter_updated (id n e : string) (t : list Ref.users_row) :
  List.filter (Ref.userid_is (Some id))
    (map (fun r => if Ref.userid_is (Some id) r
                   then Ref.mkRow (Ref.userid r) n e else r) t)
  = map (fun _ => Ref.mkRow id n e) (List.filter (Ref.userid_is (Some id)) t).
Proof.
  induction t as [| r t IH]; [reflexivity |].
  cbn [map List.filter]. destruct (Ref.userid_is (Some id) r) eqn:E.
  - change (Ref.userid_is (Some id) (Ref.mkRow (Ref.userid r) n e))
      with (Ref.userid_is (Some id) r).
    rewrite E. cbn [map]. rewrite IH.
    apply userid_is_eq in E. rewrite E. reflexivity.
  - rewrite E. exact IH.
Qed.

(** PUT /users/:id then GET /users/:id, for a user the store holds: the
    user object of the 200 answer has the name and email of the PUT under
    the id of the path (under [userid] on the relational backend). *)
Theorem put_then_get (usePostgres : bool) (id n e : string) (w : Ref.world) :
  Ref.store_up w = true -> id <> "" -> n <> "" -> e <> "" ->
  well_formed w ->
  (if usePostgres
   then existsb (Ref.userid_is (Some id)) (Ref.pg_users w) = true
   else is_Some (Ref.dynamo_Users w !! id)) ->
  exists st,
    V2.serve Ref.env usePostgres (V2.PUT_users_id id (new_values n e)) w
    = (inr (mkResponse 200 (VObj [("message", VStr "User updated!")])), st)
    /\ fst (V2.serve Ref.env usePostgres (V2.GET_users_id id) (world st))
       = inr (mkResponse 200
                (VObj [("user",
                        VObj [(if usePostgres then "userid" else "userId",
                               VStr id);
                              ("name", VStr n); ("email", VStr e)]);
                       ("orders", ref_orders w id)])).
Proof.
  intros Hup Hid Hn He Hwf Hheld. destruct usePostgres.
  - eexists. split; [apply put_users_id_postgres; assumption |].
    rewrite Hheld. simpl. unfold V2.serve, V2.handle.
    destruct (filter_some _ _ Hheld) as (r & rest & Hrows).
    erewrite get_users_id_found
      by (eapply lookup_user_postgres; [exact Hup |]; simpl;
          rewrite filter_updated, Hrows; reflexivity).
    reflexivity.
  - eexists. split; [apply put_users_id_dynamo; assumption |].
    simpl. unfold V2.serve, V2.handle.
    destruct Hheld as [old Hold]. destruct (Hwf id old Hold) as (Hu & _ & _).
    erewrite get_users_id_found
      by (eapply lookup_user_dynamo;
          [exact Hup | exact Hid | simpl; apply lookup_insert_eq
          | rewrite Hold; simpl; by simplify_map_eq
          | by simplify_map_eq | by simplify_map_eq]).
    reflexivity.
Qed.

(** A PUT /users/:id for an id the store does not hold is answered 200 on
    both backends, and the backends then differ: the key-value store has
    created the user, so the GET that follows answers 200 with it; the
    relational store has changed nothing, so the GET answers 404. *)
Theorem put_absent_user (id n e : string) (w : Ref.world) :
  Ref.store_up w = true -> id <> "" -> n <> "" -> e <> "" ->
  Ref.dynamo_Users w !! id = None ->
  existsb (Ref.userid_is (Some id)) (Ref.pg_users w) = false ->
  (exists st,
     V2.serve Ref.env false (V2.PUT_users_id id (new_values n e)) w
     = (inr (mkResponse 200 (VObj [("message", VStr "User updated!")])), st)
     /\ fst (V2.serve Ref.env false (V2.GET_users_id id) (world st))
        = inr (mkResponse 200
                 (VObj [("user", VObj [("userId", VStr id); ("name", VStr n);
                                       ("email", VStr e)]);
                        ("orders", ref_orders w id)])))
  /\ (exists tr,
        V2.serve Ref.env true (V2.PUT_users_id id (new_values n e)) w
        = (inr (mkResponse 200 (VObj [("message", VStr "User updated!")])),
           mkState w tr)
        /\ fst (V2.serve Ref.env true (V2.GET_users_id id) w)
           = inr (mkResponse 404 (VObj [("error", VStr "User not found")]))).
Proof.
  intros Hup Hid Hn He Habsent Hfree. split.
  - eexists. split; [apply put_users_id_dynamo; assumption |].
    simpl. unfold V2.serve, V2.handle. rewrite Habsent. simpl.
    erewrite get_users_id_found
      by (eapply lookup_user_dynamo;
          [exact Hup | exact Hid | simpl; apply lookup_insert_eq
          | by simplify_map_eq | by simplify_map_eq | by simplify_map_eq]).
    reflexivity.
  - eexists. split.
    + rewrite put_users_id_postgres by assumption. rewrite Hfree. reflexivity.
    + unfold V2.serve, V2.handle.
      erewrite get_users_id_not_found
        by (apply lookup_user_postgres_absent;
            [exact Hup | apply filter_none; exact Hfree]).
      reflexivity.
Qed.

End Reference_more.

(** ** Listing and isolation on the reference stores *)

Section Listing.

Lemma complete_item_out (item : gmap string string) :
  is_Some (item !! "userId") -> is_Some (item !! "name") ->
  is_Some (item !! "email") ->
  complete (Ref.item_out item) = true.
Proof.
  intros [u Hu] [n Hn] [e He]. unfold complete.
  rewrite !get_attr_item_out, Hu, Hn, He. reflexivity.
Qed.

Lemma user_view_item_out (item : gmap string string) (u n e : string) :
  item !! "userId" = Some u -> item !! "name" = Some n ->
  item !! "email" = Some e ->
  user_view (Ref.item_out item)
  = VObj [("userId", VStr u); ("name", VStr n); ("email", VStr e)].
Proof.
  intros Hu Hn He. unfold user_view, S_of.
  rewrite !get_attr_item_out, Hu, Hn, He. reflexivity.
Qed.

(** GET /users on the key-value backend returns every record once: with
    the store reachable and the items well formed, the answer is 200 with
    an array that has as many elements as the table has items and holds
    the user object of each item. *)
Theorem get_users_lists_the_table (w : Ref.world) :
  Ref.store_up w = true -> well_formed w ->
  exists users,
    fst (V2.serve Ref.env false V2.GET_users w)
    = inr (mkResponse 200 (VArr users))
    /\ length users = size (Ref.dynamo_Users w)
    /\ forall k item n e,
         Ref.dynamo_Users w !! k = Some item ->
         item !! "name" = Some n -> item !! "email" = Some e ->
         In (VObj [("userId", VStr k); ("name", VStr n); ("email", VStr e)])
            users.
Proof.
  intros Hup Hwf.
  exists (map user_view (Ref.item_out <$> (map_to_list (Ref.dynamo_Users w)).*2)).
  assert (Hall : forallb complete
                   (Ref.item_out <$> (map_to_list (Ref.dynamo_Users w)).*2)
                 = true).
  { apply forallb_forall. intros i Hi. apply in_map_iff in Hi.
    destruct Hi as (item & <- & Hin). apply in_map_iff in Hin.
    destruct Hin as ([k item'] & Hsnd & Hin). simpl in Hsnd. subst item'.
    apply list_elem_of_In, elem_of_map_to_list in Hin.
    destruct (Hwf k item Hin) as (Hu & Hn & He).
    apply complete_item_out; eauto. }
  split; [| split].
  - unfold V2.serve, V2.handle, V2.get_users. unfold_monad. simpl.
    unfold Ref.dynamo_send. rewrite Hup. simpl.
    rewrite map_M_scan_user_outcome. simpl. rewrite Hall. reflexivity.
  - rewrite length_map, !length_fmap. apply length_map_to_list.
  - intros k item n e Hitem Hn He.
    destruct (Hwf k item Hitem) as (Hu & _ & _).
    apply in_map_iff. exists (Ref.item_out item). split.
    + apply user_view_item_out; assumption.
    + apply in_map_iff. exists item. split; [reflexivity |].
      apply in_map_iff. exists (k, item). split; [reflexivity |].
      apply list_elem_of_In, elem_of_map_to_list. exact Hitem.
Qed.

End Listing.

Section Isolation.

Lemma same_for_refl (id : string) (w : Ref.world) : same_for id w w.
Proof. repeat split. Qed.

Lemma get_users_id_same_for (usePostgres : bool) (id : string)
    (w w' : Ref.world) :
  same_for id w w' ->
  fst (V2.serve Ref.env usePostgres (V2.GET_users_id id) w')
  = fst (V2.serve Ref.env usePostgres (V2.GET_users_id id) w).
Proof.
  intros (Hup & Hd & Hp & Ho).
  unfold V2.serve, V2.handle, V2.get_users_id, V2.lookup_user, V2.fetch_orders.
  unfold_monad. destruct usePostgres; simpl.
  - unfold Ref.pgClient_query. rewrite Hup.
    destruct (Ref.store_up w); [| reflexivity].
    unfold Ref.pg_exec. simpl. rewrite Hp.
    destruct (truthy _); simpl; [| reflexivity].
    unfold Ref.axios_get. rewrite Ho.
    destruct (Ref.order_service w (orders_url id)); reflexivity.
  - unfold Ref.dynamo_send. rewrite Hup.
    destruct (Ref.store_up w); [| reflexivity]. simpl.
    destruct (String.eqb id ""); [reflexivity |]. rewrite Hd.
    destruct (Ref.dynamo_Users w !! id) as [item |]; simpl; [| reflexivity].
    unfold attr_S.
    destruct (get_attr "userId" (Ref.item_out item)); simpl; [| reflexivity].
    destruct (get_attr "name" (Ref.item_out item)); simpl; [| reflexivity].
    destruct (get_attr "email" (Ref.item_out item)); simpl; [| reflexivity].
    unfold Ref.axios_get. rewrite Ho.
    destruct (Ref.order_service w (orders_url id)); reflexivity.
Qed.

Lemma put_item_same_for (id : string) (a1 a2 a3 : AttributeValue)
    (w : Ref.world) :
  AttrS a1 <> VStr id ->
  same_for id w
    (snd (Ref.dynamo_send
            (PutItemCommand TABLE [("userId", a1); ("name", a2); ("email", a3)])
            w)).
Proof.
  intros Hne. unfold Ref.dynamo_send.
  destruct (Ref.store_up w) eqn:Hup; [| apply same_for_refl]. simpl.
  unfold Ref.string_attr at 1.
  destruct (AttrS a1) as [| | | | s1 | |] eqn:Ha; try apply same_for_refl.
  destruct (Ref.string_attr a2) as [s2 |]; [| apply same_for_refl].
  destruct (Ref.string_attr a3) as [s3 |]; [| apply same_for_refl].
  simpl. rewrite lookup_insert_eq.
  destruct (String.eqb s1 ""); [apply same_for_refl |].
  repeat split; simpl.
  apply lookup_insert_ne. congruence.
Qed.

Lemma update_item_same_for (id id0 : string) (an ae : AttributeValue)
    (w : Ref.world) :
  id0 <> id ->
  same_for id w
    (snd (Ref.dynamo_send
            (UpdateItemCommand TABLE [("userId", mkAttr (VStr id0))]
               "SET #n = :n, email = :e" [("#n", "name")]
               [(":n", an); (":e", ae)])
            w)).
Proof.
  intros Hne. unfold Ref.dynamo_send.
  destruct (Ref.store_up w) eqn:Hup; [| apply same_for_refl]. simpl.
  destruct (String.eqb id0 ""); [apply same_for_refl |].
  rewrite lookup_insert_eq.
  destruct (Ref.string_attr an) as [vn |]; [| apply same_for_refl].
  destruct (Ref.string_attr ae) as [ve |]; [| apply same_for_refl].
  simpl. repeat split; simpl.
  apply lookup_insert_ne. exact Hne.
Qed.

Lemma delete_item_same_for (id id0 : string) (w : Ref.world) :
  id0 <> id ->
  same_for id w
    (snd (Ref.dynamo_send
            (DeleteItemCommand TABLE [("userId", mkAttr (VStr id0))]) w)).
Proof.
  intros Hne. unfold Ref.dynamo_send.
  destruct (Ref.store_up w) eqn:Hup; [| apply same_for_refl]. simpl.
  destruct (String.eqb id0 ""); [apply same_for_refl |].
  repeat split; simpl.
  apply lookup_delete_ne. exact Hne.
Qed.

Lemma userid_is_other (id id0 : string) (r : Ref.users_row) :
  id0 <> id -> Ref.userid_is (Some id) r = true ->
  Ref.userid_is (Some id0) r = false.
Proof.
  intros Hne H. apply userid_is_eq in H. unfold Ref.userid_is.
  apply String.eqb_neq. congruence.
Qed.

Lemma filter_update_other (id id0 n e : string) (t : list Ref.users_row) :
  id0 <> id ->
  List.filter (Ref.userid_is (Some id))
    (map (fun r => if Ref.userid_is (Some id0) r
                   then Ref.mkRow (Ref.userid r) n e else r) t)
  = List.filter (Ref.userid_is (Some id)) t.
Proof.
  intros Hne. induction t as [| r t IH]; [reflexivity |].
  cbn [map List.filter].
  destruct (Ref.userid_is (Some id0) r) eqn:E0.
  - change (Ref.userid_is (Some id) (Ref.mkRow (Ref.userid r) n e))
      with (Ref.userid_is (Some id) r).
    destruct (Ref.userid_is (Some id) r) eqn:E; [| exact IH].
    rewrite (userid_is_other id id0 r Hne E) in E0. discriminate.
  - destruct (Ref.userid_is (Some id) r); [rewrite IH; reflexivity | exact IH].
Qed.

Lemma filter_delete_other (id id0 : string) (t : list Ref.users_row) :
  id0 <> id ->
  List.filter (Ref.userid_is (Some id))
    (List.filter (fun r => negb (Ref.userid_is (Some id0) r)) t)
  = List.filter (Ref.userid_is (Some id)) t.
Proof.
  intros Hne. induction t as [| r t IH]; [reflexivity |].
  cbn [List.filter].
  destruct (Ref.userid_is (Some id0) r) eqn:E0; cbn [negb List.filter].
  - destruct (Ref.userid_is (Some id) r) eqn:E; [| exact IH].
    rewrite (userid_is_other id id0 r Hne E) in E0. discriminate.
  - destruct (Ref.userid_is (Some id) r); [rewrite IH; reflexivity | exact IH].
Qed.

Lemma insert_same_for (id : string) (p1 p2 p3 : jsval) (w : Ref.world) :
  p1 <> VStr id ->
  same_for id w
    (snd (Ref.pgClient_query
            "INSERT INTO users (userId, name, email) VALUES ($1, $2, $3)"
            [p1; p2; p3] w)).
Proof.
  intros Hne. unfold Ref.pgClient_query.
  destruct (Ref.store_up w) eqn:Hup; [| apply same_for_refl].
  unfold Ref.pg_exec. simpl.
  destruct p1 as [| | | | u | |]; simpl; try apply same_for_refl;
    destruct (Ref.pg_text p2) as [[n |] |]; simpl; try apply same_for_refl;
    destruct (Ref.pg_text p3) as [[e |] |]; simpl; try apply same_for_refl.
  destruct (existsb _ _); [apply same_for_refl |].
  repeat split; simpl.
  rewrite List.filter_app. simpl.
  destruct (String.eqb_spec u id) as [-> | _]; [congruence |].
  apply app_nil_r.
Qed.

Lemma update_same_for (id id0 : string) (p1 p2 : jsval) (w : Ref.world) :
  id0 <> id ->
  same_for id w
    (snd (Ref.pgClient_query
            "UPDATE users SET name=$1, email=$2 WHERE userId=$3"
            [p1; p2; VStr id0] w)).
Proof.
  intros Hne. unfold Ref.pgClient_query.
  destruct (Ref.store_up w) eqn:Hup; [| apply same_for_refl].
  unfold Ref.pg_exec. simpl.
  destruct (Ref.pg_text p1) as [n |]; simpl; [| apply same_for_refl].
  destruct (Ref.pg_text p2) as [e |]; simpl; [| apply same_for_refl].
  destruct (existsb _ _); [| apply same_for_refl].
  destruct n as [n |], e as [e |]; try apply same_for_refl.
  repeat split; simpl.
  exact (filter_update_other id id0 n e (Ref.pg_users w) Hne).
Qed.

Lemma delete_same_for (id id0 : string) (w : Ref.world) :
  id0 <> id ->
  same_for id w
    (snd (Ref.pgClient_query "DELETE FROM users WHERE userId=$1" [VStr id0] w)).
Proof.
  intros Hne. unfold Ref.pgClient_query.
  destruct (Ref.store_up w) eqn:Hup; [| apply same_for_refl].
  unfold Ref.pg_exec. simpl.
  repeat split; simpl.
  exact (filter_delete_other id id0 (Ref.pg_users w) Hne).
Qed.

Lemma select_keeps_world (sql : string) (ps : list jsval) (w : Ref.world) :
  String.prefix "SELECT " sql = true ->
  snd (Ref.pgClient_query sql ps w) = w.
Proof.
  intros Hsel. unfold Ref.pgClient_query, Ref.pg_exec.
  destruct (Ref.store_up w); [| reflexivity].
  repeat match goal with
         | |- context [if String.eqb sql ?s then _ else _] =>
             destruct (String.eqb_spec sql s) as [-> | ?];
             [try discriminate |]
         end;
  repeat match goal with
         | |- context [match ?x with _ => _ end] => destruct x
         end; reflexivity.
Qed.

Ltac unfold_served :=
  unfold V2.serve, V2.handle, V2.post_users, V2.get_users_id,
    V2.put_users_id, V2.delete_users_id, V2.get_users, V2.lookup_user,
    V2.fetch_orders, attr_S;
  unfold_monad;
  cbn [dynamo_send pgClient_query axios_get Ref.env world trace fst snd negb].

(** Close [same_for id w w1] where [w1] is what a call has left. *)
Ltac after_call lem c :=
  let H := fresh "Hcall" in
  pose proof lem as H;
  destruct c as [[? | ?] ?]; simpl in H |- *;
  repeat first [scan_outcome | step]; try exact H.

Lemma served_same_for (usePostgres : bool) (req : V2.request) (id : string)
    (w : Ref.world) :
  ~ about req id ->
  same_for id w (world (snd (V2.serve Ref.env usePostgres req w))).
Proof.
  intros Hnot. destruct req as [body | id0 | id0 body | id0 |]; simpl in Hnot.
  - unfold V2.serve, V2.handle, V2.post_users. cbv zeta.
    rewrite post_users_test.
    destruct (all_truthy ["userId"; "name"; "email"] body);
      [| apply same_for_refl].
    destruct usePostgres; unfold_served.
    + after_call (insert_same_for id (get_prop "userId" body)
                    (get_prop "name" body) (get_prop "email" body) w Hnot)
        (Ref.pgClient_query
           "INSERT INTO users (userId, name, email) VALUES ($1, $2, $3)"
           [get_prop "userId" body; get_prop "name" body; get_prop "email" body]
           w).
    + after_call (put_item_same_for id (mkAttr (get_prop "userId" body))
                    (mkAttr (get_prop "name" body))
                    (mkAttr (get_prop "email" body)) w Hnot)
        (Ref.dynamo_send
           (PutItemCommand TABLE
              [("userId", mkAttr (get_prop "userId" body));
               ("name", mkAttr (get_prop "name" body));
               ("email", mkAttr (get_prop "email" body))]) w).
  - destruct usePostgres; unfold_served.
    + pose proof (select_keeps_world "SELECT * FROM users WHERE userId=$1"
                    [VStr id0] w eq_refl) as Hsel.
      destruct (Ref.pgClient_query _ _ w) as [[? | ?] w1]; simpl in Hsel |- *;
        subst w1; [apply same_for_refl |].
      destruct (negb _); simpl; [apply same_for_refl |].
      pose proof (axios_get_keeps_world (orders_url id0) w) as Hax.
      destruct (Ref.axios_get (orders_url id0) w) as [[? | ?] w2];
        simpl in Hax |- *; subst w2; apply same_for_refl.
    + pose proof (get_item_keeps_world [("userId", mkAttr (VStr id0))] w) as Hget.
      destruct (Ref.dynamo_send _ w) as [[? | out] w1]; simpl in Hget |- *;
        subst w1; [apply same_for_refl |].
      destruct (Item out) as [item |]; simpl; [| apply same_for_refl].
      destruct (get_attr "userId" item); simpl; [| apply same_for_refl].
      destruct (get_attr "name" item); simpl; [| apply same_for_refl].
      destruct (get_attr "email" item); simpl; [| apply same_for_refl].
      pose proof (axios_get_keeps_world (orders_url id0) w) as Hax.
      destruct (Ref.axios_get (orders_url id0) w) as [[? | ?] w2];
        simpl in Hax |- *; subst w2; apply same_for_refl.
  - unfold V2.serve, V2.handle, V2.put_users_id. cbv zeta.
    rewrite put_users_id_test.
    destruct (all_truthy ["name"; "email"] body); [| apply same_for_refl].
    destruct usePostgres; unfold_served.
    + after_call (update_same_for id id0 (get_prop "name" body)
                    (get_prop "email" body) w Hnot)
        (Ref.pgClient_query "UPDATE users SET name=$1, email=$2 WHERE userId=$3"
           [get_prop "name" body; get_prop "email" body; VStr id0] w).
    + after_call (update_item_same_for id id0 (mkAttr (get_prop "name" body))
                    (mkAttr (get_prop "email" body)) w Hnot)
        (Ref.dynamo_send
           (UpdateItemCommand TABLE [("userId", mkAttr (VStr id0))]
              "SET #n = :n, email = :e" [("#n", "name")]
              [(":n", mkAttr (get_prop "name" body));
               (":e", mkAttr (get_prop "email" body))]) w).
  - destruct usePostgres; unfold_served.
    + after_call (delete_same_for id id0 w Hnot)
        (Ref.pgClient_query "DELETE FROM users WHERE userId=$1" [VStr id0] w).
    + after_call (delete_item_same_for id id0 w Hnot)
        (Ref.dynamo_send
           (DeleteItemCommand TABLE [("userId", mkAttr (VStr id0))]) w).
  - destruct usePostgres; unfold_served.
    + pose proof (select_keeps_world "SELECT * FROM users" [] w eq_refl) as Hsel.
      destruct (Ref.pgClient_query _ _ w) as [[? | ?] w1]; simpl in Hsel |- *;
        subst w1; apply same_for_refl.
    + pose proof (scan_keeps_world w) as Hscan.
      destruct (Ref.dynamo_send _ w) as [[? | out] w1]; simpl in Hscan |- *;
        subst w1; [apply same_for_refl |].
      rewrite map_M_scan_user_outcome.
      destruct (forallb complete _); apply same_for_refl.
Qed.

(** A request that writes one user leaves every other user as it was:
    after a POST, PUT or DELETE that is not about [id], and after any GET,
    a GET /users/:id of [id] is answered as it would have been before. *)
Theorem other_users_untouched (usePostgres : bool) (req : V2.request)
    (id : string) (w : Ref.world) :
  ~ about req id ->
  fst (V2.serve Ref.env usePostgres (V2.GET_users_id id)
         (world (snd (V2.serve Ref.env usePostgres req w))))
  = fst (V2.serve Ref.env usePostgres (V2.GET_users_id id) w).
Proof.
  intros Hnot. apply get_users_id_same_for. apply served_same_for. exact Hnot.
Qed.

End Isolation.

(** ** The further properties at concrete requests *)

Section More_witnesses.

Lemma ann_stored_well_formed : well_formed ann_stored.
Proof.
  intros k item H. simpl in H. apply lookup_singleton_Some in H.
  destruct H as [<- <-]. destruct (user_item_lookup "u1" "Ann" "ann@x.com")
    as (Hu & Hn & He).
  rewrite Hu, Hn, He. eauto.
Qed.

Lemma put_users_id_missing_fields_witness :
  (absent_or_empty "name" [("name", VStr ""); ("email", VStr "a@x.com")]
   \/ absent_or_empty "email" [("name", VStr ""); ("email", VStr "a@x.com")])
  /\ V2.put_users_id Ref.env true "u1"
       [("name", VStr ""); ("email", VStr "a@x.com")] (mkState ann_stored [])
     = (inr (mkResponse 400 (VObj [("error", VStr "Missing fields")])),
        mkState ann_stored []).
Proof.
  assert (H : absent_or_empty "name" [("name", VStr ""); ("email", VStr "a@x.com")]
              \/ absent_or_empty "email"
                   [("name", VStr ""); ("email", VStr "a@x.com")])
    by (left; right; reflexivity).
  split; [exact H |].
  exact (put_users_id_missing_fields Ref.env true "u1" _ _ H).
Defined.

Lemma calls_per_request_witness :
  length (List.filter is_store_call
            (trace (snd (V2.serve Ref.env true (V2.GET_users_id "u1") ann_stored))))
  = 1
  /\ length (List.filter is_order_call
               (trace (snd (V2.serve Ref.env true (V2.GET_users_id "u1")
                              ann_stored))))
     = 1.
Proof.
  exact (calls_per_request Ref.env true (V2.GET_users_id "u1") ann_stored
           (mkResponse 200
              (VObj [("user", Ref.row_out (Ref.mkRow "u1" "Ann" "ann@x.com"));
                     ("orders", VArr [])]))
           eq_refl).
Defined.

Lemma logged_iff_500_witness :
  status (mkResponse 500 internal_server_error) = 500%Z
  <-> existsb is_console_error
        (trace (snd (V2.serve Ref.env false V2.GET_users store_down))) = true.
Proof.
  exact (logged_iff_500 Ref.env false V2.GET_users store_down
           (mkResponse 500 internal_server_error) eq_refl).
Defined.

Lemma get_reads_only_witness :
  forallb reads_only
    (trace (snd (V2.serve Ref.env false (V2.GET_users_id "u1") ann_stored)))
  = true.
Proof.
  exact (get_reads_only Ref.env false (V2.GET_users_id "u1") ann_stored eq_refl).
Defined.

Lemma rejected_iff_falsy_witness :
  (status (mkResponse 400 missing_fields) = 400%Z
   <-> all_truthy ["userId"; "name"; "email"]
         [("userId", VNum 0); ("name", VStr "Ann"); ("email", VStr "ann@x.com")]
       = false)
  /\ (status (mkResponse 400 missing_fields) = 400%Z
      <-> all_truthy ["name"; "email"] [("name", VNull); ("email", VStr "a@x.com")]
          = false).
Proof.
  destruct (rejected_iff_falsy Ref.env false ann_stored
              (mkResponse 400 missing_fields)) as [Hpost Hput].
  split.
  - exact (Hpost [("userId", VNum 0); ("name", VStr "Ann");
                  ("email", VStr "ann@x.com")] eq_refl).
  - exact (Hput "u1" [("name", VNull); ("email", VStr "a@x.com")] eq_refl).
Defined.

Lemma get_users_scanned_witness :
  fst (V2.serve Ref.env false V2.GET_users ann_stored)
  = inr (mkResponse 200
           (VArr [VObj [("userId", VStr "u1"); ("name", VStr "Ann");
                        ("email", VStr "ann@x.com")]])).
Proof.
  exact (get_users_scanned Ref.env ann_stored ann_stored
           (mkOutput None
              (Some [Ref.item_out (user_item "u1" "Ann" "ann@x.com")]))
           eq_refl).
Defined.

Lemma v1_get_users_id_incomplete_item_witness :
  V1.serve Ref.env (V2.GET_users_id "u9") incomplete_stored
  = (inr (mkResponse 500 (VObj [("error", VStr "Internal server error")])),
     mkState incomplete_stored
       [EvDynamo (GetItemCommand TABLE [("userId", mkAttr (VStr "u9"))]) None;
        EvAxios (orders_url "u9") None;
        EvConsoleError "DynamoDB Get error" missing_attribute]).
Proof.
  exact (v1_get_users_id_incomplete_item Ref.env "u9" incomplete_stored
           incomplete_stored
           (mkOutput (Some (Ref.item_out {[ "userId" := "u9" ]})) None)
           (Ref.item_out {[ "userId" := "u9" ]}) eq_refl eq_refl eq_refl).
Defined.

Lemma revisions_agree_witness :
  fst (V1.serve Ref.env (V2.PUT_users_id "u1" (new_values "Annie" "a@x.com"))
         ann_stored)
  = fst (V2.serve Ref.env false
           (V2.PUT_users_id "u1" (new_values "Annie" "a@x.com")) ann_stored)
  /\ (is_get_users_id (V2.PUT_users_id "u1" (new_values "Annie" "a@x.com")) = false ->
      world (snd (V1.serve Ref.env
                    (V2.PUT_users_id "u1" (new_values "Annie" "a@x.com"))
                    ann_stored))
      = world (snd (V2.serve Ref.env false
                      (V2.PUT_users_id "u1" (new_values "Annie" "a@x.com"))
                      ann_stored))).
Proof.
  exact (revisions_agree Ref.env
           (V2.PUT_users_id "u1" (new_values "Annie" "a@x.com")) ann_stored
           eq_refl).
Defined.

(** A direct run against a PostgreSQL that answers. *)
Lemma start_after_initDB_witness :
  log_of (Boot.boot
            (Boot.start (Boot.scripted None None None) true
               (Some "/app/src/server.mjs") None) tt)
  = [Boot.BConnect None;
     Boot.BQuery Boot.create_users_table None;
     Boot.BConsoleLog ["Connected to PostgreSQL, ensured users table exists"];
     Boot.BListen (VNum 3000);
     Boot.BConsoleLog
       ["User microservice running on port 3000 (using PostgreSQL)"]].
Proof.
  exact (start_after_initDB (Boot.scripted None None None) true
           (Some "/app/src/server.mjs") None tt eq_refl).
Defined.

(** A direct run against a DynamoDB that refuses the [createTable]. *)
Lemma start_dynamo_listens_witness :
  fst (Boot.boot
         (Boot.start (Boot.scripted None None (Some Ref.connection_refused))
            false (Some "src/server.mjs") (Some "8080")) tt) = inr tt
  /\ In (Boot.BListen (VStr "8080"))
       (log_of (Boot.boot
                  (Boot.start
                     (Boot.scripted None None (Some Ref.connection_refused))
                     false (Some "src/server.mjs") (Some "8080")) tt))
  /\ existsb is_exit
       (log_of (Boot.boot
                  (Boot.start
                     (Boot.scripted None None (Some Ref.connection_refused))
                     false (Some "src/server.mjs") (Some "8080")) tt)) = false
  /\ existsb is_pg_call
       (log_of (Boot.boot
                  (Boot.start
                     (Boot.scripted None None (Some Ref.connection_refused))
                     false (Some "src/server.mjs") (Some "8080")) tt)) = false.
Proof.
  exact (start_dynamo_listens
           (Boot.scripted None None (Some Ref.connection_refused))
           (Some "src/server.mjs") (Some "8080") tt eq_refl).
Defined.

(** A direct run against a PostgreSQL that refuses the connection. *)
Lemma start_postgres_failure_witness :
  existsb is_listen
    (log_of (Boot.boot
               (Boot.start (Boot.scripted (Some Ref.connection_refused) None None)
                  true (Some "src/server.mjs") None) tt)) = false
  /\ exists before,
       log_of (Boot.boot
                 (Boot.start
                    (Boot.scripted (Some Ref.connection_refused) None None)
                    true (Some "src/server.mjs") None) tt)
       = (before
          ++ [Boot.BConsoleError "Error initializing DB:" Ref.connection_refused;
              Boot.BExit 1])%list.
Proof.
  exact (start_postgres_failure
           (Boot.scripted (Some Ref.connection_refused) None None)
           (Some "src/server.mjs") None tt Ref.connection_refused
           eq_refl eq_refl).
Defined.

(** The file imported by the test runner. *)
Lemma start_when_imported_witness :
  Boot.boot
    (Boot.start (Boot.scripted None None None) true
       (Some "node_modules/.bin/jest") None) tt
  = (inr tt, mkState (Boot.mkBoot tt []) []).
Proof.
  apply (start_when_imported (Boot.scripted None None None) true
           (Some "node_modules/.bin/jest") None tt).
  intros p H. inversion H as [Hs].
  assert (Hends : Boot.ends_with "server.mjs" "node_modules/.bin/jest" = true)
    by (apply ends_with_iff; exists p; exact Hs).
  discriminate Hends.
Defined.

Lemma userids_stay_unique_witness :
  unique_userids ann_stored
  /\ unique_userids
       (world (snd (V2.serve Ref.env true
                      (V2.POST_users (new_user "u2" "Bob" "bob@x.com"))
                      ann_stored))).
Proof.
  assert (H : unique_userids ann_stored) by apply NoDup_singleton.
  split; [exact H |].
  exact (userids_stay_unique true
           (V2.POST_users (new_user "u2" "Bob" "bob@x.com")) ann_stored H).
Defined.


Lemma serve_well_formed_witness :
  well_formed ann_stored
  /\ well_formed
       (world (snd (V2.serve Ref.env false
                      (V2.PUT_users_id "u2" (new_values "Bob" "bob@x.com"))
                      ann_stored))).
Proof.
  split; [exact ann_stored_well_formed |].
  exact (serve_well_formed false
           (V2.PUT_users_id "u2" (new_values "Bob" "bob@x.com")) ann_stored
           ann_stored_well_formed).
Defined.

Lemma put_then_get_witness :
  exists st,
    V2.serve Ref.env true (V2.PUT_users_id "u1" (new_values "Annie" "a@x.com"))
      ann_stored
    = (inr (mkResponse 200 (VObj [("message", VStr "User updated!")])), st)
    /\ fst (V2.serve Ref.env true (V2.GET_users_id "u1") (world st))
       = inr (mkResponse 200
                (VObj [("user", VObj [("userid", VStr "u1");
                                      ("name", VStr "Annie");
                                      ("email", VStr "a@x.com")]);
                       ("orders", ref_orders ann_stored "u1")])).
Proof.
  exact (put_then_get true "u1" "Annie" "a@x.com" ann_stored eq_refl
           ltac:(discriminate) ltac:(discriminate) ltac:(discriminate)
           ann_stored_well_formed eq_refl).
Defined.

Lemma put_absent_user_witness :
  (exists st,
     V2.serve Ref.env false (V2.PUT_users_id "u7" (new_values "Eve" "eve@x.com"))
       Ref.empty_world
     = (inr (mkResponse 200 (VObj [("message", VStr "User updated!")])), st)
     /\ fst (V2.serve Ref.env false (V2.GET_users_id "u7") (world st))
        = inr (mkResponse 200
                 (VObj [("user", VObj [("userId", VStr "u7"); ("name", VStr "Eve");
                                       ("email", VStr "eve@x.com")]);
                        ("orders", ref_orders Ref.empty_world "u7")])))
  /\ (exists tr,
        V2.serve Ref.env true (V2.PUT_users_id "u7" (new_values "Eve" "eve@x.com"))
          Ref.empty_world
        = (inr (mkResponse 200 (VObj [("message", VStr "User updated!")])),
           mkState Ref.empty_world tr)
        /\ fst (V2.serve Ref.env true (V2.GET_users_id "u7") Ref.empty_world)
           = inr (mkResponse 404 (VObj [("error", VStr "User not found")]))).
Proof.
  exact (put_absent_user "u7" "Eve" "eve@x.com" Ref.empty_world eq_refl
           ltac:(discriminate) ltac:(discriminate) ltac:(discriminate)
           (lookup_empty "u7") eq_refl).
Defined.

Lemma get_users_lists_the_table_witness :
  exists users,
    fst (V2.serve Ref.env false V2.GET_users ann_stored)
    = inr (mkResponse 200 (VArr users))
    /\ length users = size (Ref.dynamo_Users ann_stored)
    /\ forall k item n e,
         Ref.dynamo_Users ann_stored !! k = Some item ->
         item !! "name" = Some n -> item !! "email" = Some e ->
         In (VObj [("userId", VStr k); ("name", VStr n); ("email", VStr e)])
            users.
Proof.
  exact (get_users_lists_the_table ann_stored eq_refl ann_stored_well_formed).
Defined.

Lemma other_users_untouched_witness :
  fst (V2.serve Ref.env true (V2.GET_users_id "u1")
         (world (snd (V2.serve Ref.env true (V2.DELETE_users_id "u2")
                        ann_stored))))
  = fst (V2.serve Ref.env true (V2.GET_users_id "u1") ann_stored).
Proof.
  apply (other_users_untouched true (V2.DELETE_users_id "u2") "u1" ann_stored).
  simpl. discriminate.
Defined.

Lemma post_then_get_dynamo_witness :
  exists st,
    V2.serve Ref.env false (V2.POST_users (new_user "u1" "Ann" "ann@x.com"))
      Ref.empty_world
    = (inr (mkResponse 201 (VObj [("message", VStr "User created!")])), st)
    /\ fst (V2.serve Ref.env false (V2.GET_users_id "u1") (world st))
       = inr (mkResponse 200
                (VObj [("user", VObj [("userId", VStr "u1"); ("name", VStr "Ann");
                                      ("email", VStr "ann@x.com")]);
                       ("orders", ref_orders Ref.empty_world "u1")])).
Proof.
  exact (post_then_get_dynamo Ref.empty_world "u1" "Ann" "ann@x.com" eq_refl
           ltac:(discriminate) ltac:(discriminate) ltac:(discriminate)).
Defined.

Lemma post_then_get_postgres_witness :
  exists st,
    V2.serve Ref.env true (V2.POST_users (new_user "u2" "Bob" "bob@x.com"))
      ann_stored
    = (inr (mkResponse 201 (VObj [("message", VStr "User created!")])), st)
    /\ fst (V2.serve Ref.env true (V2.GET_users_id "u2") (world st))
       = inr (mkResponse 200
                (VObj [("user", VObj [("userid", VStr "u2"); ("name", VStr "Bob");
                                      ("email", VStr "bob@x.com")]);
                       ("orders", ref_orders ann_stored "u2")])).
Proof.
  exact (post_then_get_postgres ann_stored "u2" "Bob" "bob@x.com" eq_refl
           ltac:(discriminate) ltac:(discriminate) ltac:(discriminate) eq_refl).
Defined.

End More_witnesses.
